(** * The QGB attestation nonce log (x/qgb/keeper/keeper_attestation.go)

    A shallow embedding of the keeper's attestation functions over a
    key-value store, with Go panics made explicit, and the properties of
    the attestation log stated over it. *)

From Stdlib Require Import ZArith Lia List Ascii String.
From Stdlib Require DecimalString.
From stdpp Require Import base option list gmap strings.

Local Open Scope Z_scope.

(** ** Bytes and unsigned 64-bit integers *)

(** A Go [[]byte] (and a Go [string], which is a byte sequence too) is a
    list of 8-bit characters. *)
Abbreviation bytes := (list ascii).

(** Go's [[]byte(s)] conversion of a string constant. *)
Definition bytes_of (s : string) : bytes := list_ascii_of_string s.

(** A [uint64] is an integer in [0, 2^64); arithmetic wraps explicitly. *)
Definition is_uint64 (n : Z) : Prop := 0 <= n < 2 ^ 64.

Definition uint64_add (a b : Z) : Z := (a + b) mod 2 ^ 64.

(** Go's [byte(v)] conversion: the low eight bits. *)
Definition byte_of_Z (v : Z) : ascii := ascii_of_N (Z.to_N (Z.land v 255)).

(** Go's [uint64(b)] conversion of a byte. *)
Definition Z_of_byte (b : ascii) : Z := Z.of_N (N_of_ascii b).

(** ** The [types] package: keys and fixed-width encodings *)

Module types.

(** Modelled from the spec: the [types] package is not part of the
    sources at hand.  The attestation entries and the scalar counters
    live under fixed, distinct key prefixes; the identifiers are the ones
    the keeper refers to. *)
Definition AttestationRequestKey : string := "AttestationRequestKey".
Definition LatestAttestationtNonce : string := "LatestAttestationNonce".
Definition LastPrunedAttestationNonce : string := "LastPrunedAttestationNonce".
Definition LastUnbondingNonce : string := "LastUnbondingNonce".

Definition ModuleName : string := "qgb".
Definition EventTypeAttestationRequest : string := "AttestationRequest".
Definition AttributeKeyNonce : string := "nonce".

(** Modelled from the spec: [UInt64Bytes], the 8-byte big-endian image of
    a [uint64] ([binary.BigEndian.PutUint64]). *)
Definition UInt64Bytes (n : Z) : bytes :=
  [ byte_of_Z (Z.shiftr n 56); byte_of_Z (Z.shiftr n 48);
    byte_of_Z (Z.shiftr n 40); byte_of_Z (Z.shiftr n 32);
    byte_of_Z (Z.shiftr n 24); byte_of_Z (Z.shiftr n 16);
    byte_of_Z (Z.shiftr n 8);  byte_of_Z n ].

(** Modelled from the spec: [GetAttestationKey], the key of the entry of
    a nonce: the attestation prefix followed by the encoded nonce. *)
Definition GetAttestationKey (nonce : Z) : bytes :=
  bytes_of AttestationRequestKey ++ UInt64Bytes nonce.

(** Modelled from the spec: an attestation request is a tagged variant,
    a validator-set update (validator powers and a height) or a data
    commitment (a root hash and a block-height range), each identified by
    its nonce. *)
Inductive AttestationRequestI : Type :=
| Valset (Nonce : Z) (Powers : list Z) (Height : Z)
| DataCommitment (Nonce : Z) (RootHash : bytes) (BeginBlock EndBlock : Z).

Definition GetNonce (at_ : AttestationRequestI) : Z :=
  match at_ with
  | Valset n _ _ => n
  | DataCommitment n _ _ _ => n
  end.

(** Every integer field of the request fits its [uint64] type. *)
Definition wf_request (at_ : AttestationRequestI) : Prop :=
  match at_ with
  | Valset n ps h =>
      is_uint64 n /\ is_uint64 h /\ Forall is_uint64 ps
      /\ is_uint64 (Z.of_nat (length ps))
  | DataCommitment n _ b e => is_uint64 n /\ is_uint64 b /\ is_uint64 e
  end.

Inductive error : Type :=
| ErrUnmarshalllAttestation
| ErrCodec (msg : string).

End types.

(** ** Panics, the context and the store *)

(** The value a Go [panic] carries. *)
Inductive panic_value : Type :=
| PanicString (msg : string)
| PanicError (err : types.error)
| PanicRuntime (msg : string).

Record Event : Type := NewEvent {
  event_type : string;
  event_attributes : list (string * string)
}.

(** [sdk.Context] as the keeper uses it: the module's key-value store
    ([ctx.KVStore(k.storeKey)]) and the events emitted so far. *)
Record Context : Type := mkContext {
  KVStore : gmap bytes bytes;
  EventManager : list Event
}.

Definition empty_ctx : Context := mkContext ∅ [].

(** The outcome of a call: it returns a value, or it panics; both leave the
    context as it is at that point. *)
Inductive outcome (A : Type) : Type :=
| Returned (a : A) (ctx : Context)
| Panicked (v : panic_value) (ctx : Context).
Arguments Returned {A} a ctx.
Arguments Panicked {A} v ctx.

Definition M (A : Type) : Type := Context -> outcome A.

Definition ret {A} (a : A) : M A := fun ctx => Returned a ctx.

Definition bind {A B} (m : M A) (f : A -> M B) : M B :=
  fun ctx =>
    match m ctx with
    | Returned a ctx' => f a ctx'
    | Panicked v ctx' => Panicked v ctx'
    end.

Definition panic {A} (v : panic_value) : M A := fun ctx => Panicked v ctx.

Notation "'do' x <- m ; k" := (bind m (fun x => k))
  (at level 10, x name, m at level 100, k at level 200).
Notation "'call' m ; k" := (bind m (fun _ => k))
  (at level 10, m at level 100, k at level 200).

(** The store interface: [Has], [Get] ([None] is Go's nil result), [Set]
    and [Delete].  Every value the keeper writes is non-empty, so a key that
    is present never reads as nil. *)
Definition store_Has (key : bytes) : M bool :=
  fun ctx => Returned (bool_decide (is_Some (KVStore ctx !! key))) ctx.

Definition store_Get (key : bytes) : M (option bytes) :=
  fun ctx => Returned (KVStore ctx !! key) ctx.

Definition store_Set (key value : bytes) : M unit :=
  fun ctx => Returned tt (mkContext (<[key := value]> (KVStore ctx)) (EventManager ctx)).

Definition store_Delete (key : bytes) : M unit :=
  fun ctx => Returned tt (mkContext (delete key (KVStore ctx)) (EventManager ctx)).

Definition EmitEvent (e : Event) : M unit :=
  fun ctx => Returned tt (mkContext (KVStore ctx) (EventManager ctx ++ [e])).

(** Go's [fmt.Sprint] of a [uint64]: its decimal digits. *)
Definition Sprint (n : Z) : string :=
  DecimalString.NilZero.string_of_uint (N.to_uint (Z.to_N n)).

(** ** The keeper *)

(** The codec interface the keeper holds ([k.cdc]): it marshals a request
    to bytes and unmarshals bytes to a request, either of which can fail
    with an error. *)
Record BinaryCodec : Type := {
  MarshalInterface : types.AttestationRequestI -> types.error + bytes;
  UnmarshalInterface : bytes -> types.error + types.AttestationRequestI
}.

Record Keeper : Type := { cdc : BinaryCodec }.

(** Go's [binary.BigEndian.Uint64]: the first eight bytes, most significant
    first; [None] where Go's bounds check fails. *)
Definition BigEndian_Uint64 (s : bytes) : option Z :=
  match s with
  | b0 :: b1 :: b2 :: b3 :: b4 :: b5 :: b6 :: b7 :: _ =>
      Some (Z.lor (Z.lor (Z.lor (Z.lor (Z.lor (Z.lor (Z.lor
             (Z_of_byte b7)
             (Z.shiftl (Z_of_byte b6) 8))
             (Z.shiftl (Z_of_byte b5) 16))
             (Z.shiftl (Z_of_byte b4) 24))
             (Z.shiftl (Z_of_byte b3) 32))
             (Z.shiftl (Z_of_byte b2) 40))
             (Z.shiftl (Z_of_byte b1) 48))
             (Z.shiftl (Z_of_byte b0) 56))
  | _ => None
  end.

(** Modelled from the spec: [UInt64FromBytes] of the keeper package reads a
    big-endian [uint64]; on fewer than eight bytes Go panics. *)
Definition UInt64FromBytes (s : bytes) : M Z :=
  match BigEndian_Uint64 s with
  | Some v => ret v
  | None => panic (PanicRuntime "index out of range")
  end.

Section keeper.
Variable k : Keeper.

Definition StoreAttestation (at_ : types.AttestationRequestI) : M unit :=
  let nonce := types.GetNonce at_ in
  let key := types.GetAttestationKey nonce in
  do has <- store_Has key ;
  if has : bool then
    panic (PanicString "trying to overwrite existing attestation request")
  else
    match MarshalInterface (cdc k) at_ with
    | inl err => panic (PanicError err)
    | inr b => store_Set key b
    end.

Definition CheckLatestAttestationNonce : M bool :=
  store_Has (bytes_of types.LatestAttestationtNonce).

Definition GetLatestAttestationNonce : M Z :=
  do bz <- store_Get (bytes_of types.LatestAttestationtNonce) ;
  match bz with
  | None => panic (PanicString "nil LatestAttestationNonce")
  | Some b => UInt64FromBytes b
  end.

Definition SetLatestAttestationNonce (nonce : Z) : M unit :=
  do has <- CheckLatestAttestationNonce ;
  do bad <- (if has : bool then
               do latest <- GetLatestAttestationNonce ;
               ret (negb (uint64_add latest 1 =? nonce))
             else ret false) ;
  if bad : bool then
    panic (PanicString "not incrementing latest attestation nonce correctly")
  else
    store_Set (bytes_of types.LatestAttestationtNonce) (types.UInt64Bytes nonce).

Definition SetAttestationRequest (at_ : types.AttestationRequestI)
  : M (option types.error) :=
  call StoreAttestation at_ ;
  call SetLatestAttestationNonce (types.GetNonce at_) ;
  call EmitEvent (NewEvent types.EventTypeAttestationRequest
               [ ("module"%string, types.ModuleName);
                 (types.AttributeKeyNonce, Sprint (types.GetNonce at_)) ]) ;
  ret None.

Definition CheckLastPrunedAttestationNonce : M bool :=
  store_Has (bytes_of types.LatestAttestationtNonce).

Definition GetLastPrunedAttestationNonce : M Z :=
  do bz <- store_Get (bytes_of types.LastPrunedAttestationNonce) ;
  match bz with
  | None => panic (PanicString "nil last pruned attestation nonce")
  | Some b => UInt64FromBytes b
  end.

Definition SetLastPrunedAttestationNonce (nonce : Z) : M unit :=
  store_Set (bytes_of types.LastPrunedAttestationNonce) (types.UInt64Bytes nonce).

Definition CheckLastUnbondingNonce : M bool :=
  store_Has (bytes_of types.LastUnbondingNonce).

Definition GetLastUnbondingNonce : M Z :=
  do bz <- store_Get (bytes_of types.LastUnbondingNonce) ;
  match bz with
  | None => panic (PanicString "nil last unbonding nonce")
  | Some b => UInt64FromBytes b
  end.

Definition SetLastUnbondingNonce (nonce : Z) : M unit :=
  store_Set (bytes_of types.LastUnbondingNonce) (types.UInt64Bytes nonce).

Definition GetAttestationByNonce (nonce : Z)
  : M (option types.AttestationRequestI * bool * option types.error) :=
  do bz <- store_Get (types.GetAttestationKey nonce) ;
  match bz with
  | None => ret (None, false, None)
  | Some b =>
      match UnmarshalInterface (cdc k) b with
      | inl _ => ret (None, false, Some types.ErrUnmarshalllAttestation)
      | inr at_ => ret (Some at_, true, None)
      end
  end.

Definition DeleteAttestation (nonce : Z) : M unit :=
  let key := types.GetAttestationKey nonce in
  do has <- store_Has key ;
  if negb has then ret tt else store_Delete key.

End keeper.

(** ** A codec for the two request variants *)

Module codec.

Definition tag_Valset : ascii := "001"%char.
Definition tag_DataCommitment : ascii := "002"%char.

Definition read_uint64 (bs : bytes) : option (Z * bytes) :=
  match BigEndian_Uint64 bs with
  | Some v => Some (v, drop 8 bs)
  | None => None
  end.

Fixpoint read_uint64s (count : nat) (bs : bytes) : option (list Z * bytes) :=
  match count with
  | O => Some ([], bs)
  | S c =>
      match read_uint64 bs with
      | Some (v, rest) =>
          match read_uint64s c rest with
          | Some (vs, rest') => Some (v :: vs, rest')
          | None => None
          end
      | None => None
      end
  end.

(** Modelled from the spec: the serialization facility is consumed through
    an interface and its implementation is not part of the sources at
    hand.  It encodes a tagged request to bytes, the tag first, and
    decodes bytes to the variant the tag names, signalling an error on an
    unrecognized or corrupt payload. *)
Definition Marshal (at_ : types.AttestationRequestI) : types.error + bytes :=
  match at_ with
  | types.Valset n ps h =>
      inr (tag_Valset :: types.UInt64Bytes n ++ types.UInt64Bytes h
             ++ types.UInt64Bytes (Z.of_nat (length ps))
             ++ flat_map types.UInt64Bytes ps)
  | types.DataCommitment n root b e =>
      inr (tag_DataCommitment :: types.UInt64Bytes n ++ types.UInt64Bytes b
             ++ types.UInt64Bytes e ++ root)
  end.

Definition corrupt : types.error + types.AttestationRequestI :=
  inl (types.ErrCodec "unrecognized or corrupt payload").

Definition Unmarshal (bz : bytes) : types.error + types.AttestationRequestI :=
  match bz with
  | [] => corrupt
  | tag :: body =>
      if decide (tag = tag_Valset) then
        match read_uint64 body with
        | Some (n, r1) =>
            match read_uint64 r1 with
            | Some (h, r2) =>
                match read_uint64 r2 with
                | Some (c, r3) =>
                    match read_uint64s (Z.to_nat c) r3 with
                    | Some (ps, []) => inr (types.Valset n ps h)
                    | _ => corrupt
                    end
                | None => corrupt
                end
            | None => corrupt
            end
        | None => corrupt
        end
      else if decide (tag = tag_DataCommitment) then
        match read_uint64 body with
        | Some (n, r1) =>
            match read_uint64 r1 with
            | Some (b, r2) =>
                match read_uint64 r2 with
                | Some (e, root) => inr (types.DataCommitment n root b e)
                | None => corrupt
                end
            | None => corrupt
            end
        | None => corrupt
        end
      else corrupt
  end.

Definition protoCodec : BinaryCodec :=
  {| MarshalInterface := Marshal; UnmarshalInterface := Unmarshal |}.

End codec.

(** The keeper over the codec above. *)
Definition qgbKeeper : Keeper := {| cdc := codec.protoCodec |}.

(** ** Observations of the log *)

(** The context an outcome leaves. *)
Definition ctx_of {A} (o : outcome A) : Context :=
  match o with
  | Returned _ ctx => ctx
  | Panicked _ ctx => ctx
  end.

Definition panics {A} (o : outcome A) : Prop :=
  match o with
  | Returned _ _ => False
  | Panicked _ _ => True
  end.

(** The value of a counter: absent, or the integer its bytes encode. *)
Definition counter (key : string) (ctx : Context) : option Z :=
  KVStore ctx !! bytes_of key ≫= BigEndian_Uint64.

Definition LatestNonce : Context -> option Z :=
  counter types.LatestAttestationtNonce.

Definition LastPrunedNonce : Context -> option Z :=
  counter types.LastPrunedAttestationNonce.

(** A counter present in the store holds at least the eight bytes of a
    [uint64], as every counter the keeper writes does. *)
Definition counter_wf (key : string) (ctx : Context) : Prop :=
  forall bz, KVStore ctx !! bytes_of key = Some bz -> is_Some (BigEndian_Uint64 bz).

Definition counters_wf (ctx : Context) : Prop :=
  counter_wf types.LatestAttestationtNonce ctx
  /\ counter_wf types.LastPrunedAttestationNonce ctx.

(** An attestation is stored under the nonce. *)
Definition has_attestation (ctx : Context) (n : Z) : Prop :=
  is_Some (KVStore ctx !! types.GetAttestationKey n).

(** Modelled from the spec: the existence check and the read of a counter
    as the one operation the spec describes, returning the value and
    whether it was found. *)
Definition GetLatestNonce : M (Z * bool) :=
  do has <- CheckLatestAttestationNonce ;
  if has : bool then
    do v <- GetLatestAttestationNonce ; ret (v, true)
  else ret (0, false).

Definition GetLastPrunedNonce : M (Z * bool) :=
  do has <- CheckLastPrunedAttestationNonce ;
  if has : bool then
    do v <- GetLastPrunedAttestationNonce ; ret (v, true)
  else ret (0, false).

(** ** Sequences of operations *)

(** Appends in order; the first panic aborts the sequence. *)
Fixpoint Appends (k : Keeper) (ats : list types.AttestationRequestI) : M unit :=
  match ats with
  | [] => ret tt
  | at_ :: rest => call SetAttestationRequest k at_ ; Appends k rest
  end.

Inductive Op : Type :=
| OpAppend (at_ : types.AttestationRequestI)
| OpDeleteAttestation (nonce : Z)
| OpSetLastPrunedNonce (nonce : Z).

Definition apply_op (k : Keeper) (op : Op) : M unit :=
  match op with
  | OpAppend at_ => call SetAttestationRequest k at_ ; ret tt
  | OpDeleteAttestation nonce => DeleteAttestation nonce
  | OpSetLastPrunedNonce nonce => SetLastPrunedAttestationNonce nonce
  end.

Fixpoint run_ops (k : Keeper) (ops : list Op) : M unit :=
  match ops with
  | [] => ret tt
  | op :: rest => call apply_op k op ; run_ops k rest
  end.

(** The operation does not delete the entry of nonce [n]. *)
Definition keeps_nonce (n : Z) (op : Op) : Prop :=
  match op with
  | OpDeleteAttestation m => is_uint64 m /\ m <> n
  | _ => True
  end.

(** [DeleteAttestation] for [count] nonces upwards of [from]. *)
Fixpoint delete_range (from : Z) (count : nat) : M unit :=
  match count with
  | O => ret tt
  | S c => call DeleteAttestation from ; delete_range (from + 1) c
  end.

(** Modelled from the spec: the pruning composition, which the sources at
    hand do not contain: [DeleteAttestation] for every nonce in
    [LastPrunedNonce+1, target] (from 1 before any pruning), then
    [LastPrunedNonce] advances to [target]. *)
Definition PruneUpTo (target : Z) : M unit :=
  fun ctx =>
    let lo := default 0 (LastPrunedNonce ctx) in
    (call delete_range (lo + 1) (Z.to_nat (target - lo)) ;
     SetLastPrunedAttestationNonce target) ctx.

(** ** The invariant of the log *)

(** I1: the stored nonces are exactly those above [LastPrunedNonce] (0
    before any pruning) and up to [LatestNonce] (none before any append). *)
Definition I1 (ctx : Context) : Prop :=
  forall n, is_uint64 n ->
    has_attestation ctx n
    <-> default 0 (LastPrunedNonce ctx) < n <= default 0 (LatestNonce ctx).

(** What the induction over the disciplined log states carries along. *)
Definition log_inv (ctx : Context) : Prop :=
  counters_wf ctx
  /\ I1 ctx
  /\ default 0 (LastPrunedNonce ctx) <= default 0 (LatestNonce ctx) < 2 ^ 64.

(** The append precondition as the spec words it: the nonce is
    [LatestNonce + 1], or 1 if no attestation exists yet. *)
Definition spec_append_precondition (ctx : Context) (at_ : types.AttestationRequestI) : Prop :=
  match LatestNonce ctx with
  | Some latest => types.GetNonce at_ = latest + 1
  | None => types.GetNonce at_ = 1
  end.

(** The nonces of a run of appends follow one another: each is its
    predecessor plus one, the first following the counter when it is set. *)
Fixpoint consecutive (prev : option Z) (ns : list Z) : Prop :=
  match ns with
  | [] => True
  | n :: rest =>
      match prev with
      | Some p => n = uint64_add p 1
      | None => True
      end /\ consecutive (Some n) rest
  end.

(** The latest nonce after a run of appends with the given nonces. *)
Fixpoint latest_after (prev : option Z) (ns : list Z) : option Z :=
  match ns with
  | [] => prev
  | n :: rest => latest_after (Some n) rest
  end.

(** The log states of a disciplined use: from the fresh log, appends that
    succeed (the first one with nonce 1, none wrapping around to 0) and
    pruning compositions whose target is at least [LastPrunedNonce] and
    strictly below [LatestNonce]. *)
Inductive committed (k : Keeper) : Context -> Prop :=
| committed_fresh : committed k empty_ctx
| committed_Append ctx at_ ctx' :
    committed k ctx ->
    (LatestNonce ctx = None -> types.GetNonce at_ = 1) ->
    types.GetNonce at_ <> 0 ->
    SetAttestationRequest k at_ ctx = Returned None ctx' ->
    committed k ctx'
| committed_PruneUpTo ctx target latest ctx' :
    committed k ctx ->
    LatestNonce ctx = Some latest ->
    default 0 (LastPrunedNonce ctx) <= target < latest ->
    PruneUpTo target ctx = Returned tt ctx' ->
    committed k ctx'.

(** ** The outcomes of an append *)

Definition overwrite_panic : panic_value :=
  PanicString "trying to overwrite existing attestation request".
Definition increment_panic : panic_value :=
  PanicString "not incrementing latest attestation nonce correctly".
Definition bounds_panic : panic_value := PanicRuntime "index out of range".

Definition request_event (at_ : types.AttestationRequestI) : Event :=
  NewEvent types.EventTypeAttestationRequest
    [ ("module"%string, types.ModuleName);
      (types.AttributeKeyNonce, Sprint (types.GetNonce at_)) ].

Definition set_kv (ctx : Context) (key value : bytes) : Context :=
  mkContext (<[key := value]> (KVStore ctx)) (EventManager ctx).

(** The context a successful append leaves. *)
Definition appended (ctx : Context) (at_ : types.AttestationRequestI) (b : bytes) : Context :=
  mkContext
    (<[bytes_of types.LatestAttestationtNonce := types.UInt64Bytes (types.GetNonce at_)]>
       (<[types.GetAttestationKey (types.GetNonce at_) := b]> (KVStore ctx)))
    (EventManager ctx ++ [request_event at_]).

(** ** Sample requests and log states *)

Definition request1 : types.AttestationRequestI := types.DataCommitment 1 [] 1 10.
Definition request2 : types.AttestationRequestI := types.Valset 2 [10; 20] 11.
Definition request3 : types.AttestationRequestI := types.DataCommitment 3 [] 11 20.
Definition request5 : types.AttestationRequestI := types.DataCommitment 5 [] 1 10.

(** The log after appending nonce 1, and after appending nonces 1, 2, 3. *)
Definition ctx1 : Context :=
  ctx_of (SetAttestationRequest qgbKeeper request1 empty_ctx).
Definition ctx12 : Context :=
  ctx_of (SetAttestationRequest qgbKeeper request2 ctx1).
Definition ctx1_aborted : Context :=
  ctx_of (SetAttestationRequest qgbKeeper request3 ctx1).
Definition ctx123 : Context :=
  ctx_of (Appends qgbKeeper [request1; request2; request3] empty_ctx).

(** Nonces 1, 2, 3 appended and then the entry of nonce 2 deleted. *)
Definition ops_gap : list Op :=
  [OpAppend request1; OpAppend request2; OpAppend request3; OpDeleteAttestation 2].
Definition ctx_gap : Context := ctx_of (run_ops qgbKeeper ops_gap empty_ctx).

(** After nonce 1: nonces 2 and 3 appended, the entry of nonce 2 deleted and
    the last pruned nonce advanced. *)
Definition ops_later : list Op :=
  [OpAppend request2; OpAppend request3; OpDeleteAttestation 2; OpSetLastPrunedNonce 0].
Definition ctx_later : Context := ctx_of (run_ops qgbKeeper ops_later ctx1).

(** Nonces 1, 2, 3 appended and then pruned up to 2. *)
Definition ctx_pruned : Context := ctx_of (PruneUpTo 2 ctx123).

(** The largest [uint64], and the log whose latest nonce is that value. *)
Definition MaxUint64 : Z := 2 ^ 64 - 1.
Definition ctx_max : Context := ctx_of (SetLatestAttestationNonce MaxUint64 empty_ctx).
Definition request0 : types.AttestationRequestI := types.DataCommitment 0 [] 1 10.

(** A keeper whose codec marshals as above but decodes nothing. *)
Definition writeOnlyKeeper : Keeper :=
  {| cdc := {| MarshalInterface := codec.Marshal;
               UnmarshalInterface := fun _ => codec.corrupt |} |}.

(** Nonces 0, 1, 2, 3 appended to the fresh log, and then pruned up to 2. *)
Definition ctx0123 : Context :=
  ctx_of (Appends qgbKeeper [request0; request1; request2; request3] empty_ctx).
Definition ctx0123_pruned : Context := ctx_of (PruneUpTo 2 ctx0123).

(** ** The fixed-width encoding *)

Lemma Z_of_byte_of_Z (v : Z) : Z_of_byte (byte_of_Z v) = Z.land v 255.
Proof.
  unfold Z_of_byte, byte_of_Z.
  assert (Hb : 0 <= Z.land v 255 < 256).
  { change 255 with (Z.ones 8). rewrite Z.land_ones by lia.
    apply Z.mod_pos_bound. lia. }
  rewrite N_ascii_embedding by lia.
  lia.
Qed.

Lemma testbit_255 (j : Z) : 0 <= j -> Z.testbit 255 j = (j <? 8).
Proof.
  intros Hj. change 255 with (Z.ones 8).
  rewrite Z.testbit_ones_nonneg by lia.
  reflexivity.
Qed.

(** One byte lane of the big-endian image, bit by bit. *)
Lemma lane_testbit (n s i : Z) :
  0 <= s -> 0 <= i ->
  Z.testbit (Z.shiftl (Z.land (Z.shiftr n s) 255) s) i
  = Z.testbit n i && (s <=? i) && (i <? s + 8).
Proof.
  intros Hs Hi.
  rewrite Z.shiftl_spec by lia.
  destruct (Z.leb_spec s i) as [Hle|Hlt].
  - rewrite Z.land_spec, Z.shiftr_spec, testbit_255 by lia.
    replace (i - s + s) with i by lia.
    replace (i - s <? 8) with (i <? s + 8); [by rewrite andb_true_r|].
    destruct (Z.ltb_spec i (s + 8)), (Z.ltb_spec (i - s) 8); lia || reflexivity.
  - rewrite Z.testbit_neg_r by lia. by rewrite andb_false_r.
Qed.

Lemma uint64_high_bits (n i : Z) :
  is_uint64 n -> 64 <= i -> Z.testbit n i = false.
Proof.
  intros [Hlo Hhi] Hi.
  destruct (Z.eq_dec n 0) as [->|Hn]; [apply Z.bits_0|].
  apply Z.bits_above_log2; [lia|].
  assert (Z.log2 n < 64) by (apply Z.log2_lt_pow2; lia).
  lia.
Qed.

Lemma BigEndian_Uint64_UInt64Bytes (n : Z) (rest : bytes) :
  is_uint64 n -> BigEndian_Uint64 (types.UInt64Bytes n ++ rest) = Some n.
Proof.
  intros Hn. unfold types.UInt64Bytes. cbn [app BigEndian_Uint64].
  f_equal. rewrite !Z_of_byte_of_Z.
  rewrite <- (Z.shiftr_0_r n) at 1.
  rewrite <- (Z.shiftl_0_r (Z.land (Z.shiftr n 0) 255)).
  apply Z.bits_inj'. intros i Hi.
  rewrite !Z.lor_spec, !lane_testbit by lia.
  destruct (Z.testbit n i) eqn:Hbit; [|reflexivity].
  assert (i < 64).
  { destruct (Z_lt_dec i 64); [done|].
    rewrite uint64_high_bits in Hbit by (done || lia). discriminate. }
  cbn [andb].
  repeat match goal with
         | |- context [?a <=? ?b] => destruct (Z.leb_spec a b)
         | |- context [?a <? ?b] => destruct (Z.ltb_spec a b)
         end; reflexivity || lia.
Qed.

Lemma UInt64Bytes_length (n : Z) : length (types.UInt64Bytes n) = 8%nat.
Proof. reflexivity. Qed.

Lemma UInt64Bytes_inj (n m : Z) :
  is_uint64 n -> is_uint64 m ->
  types.UInt64Bytes n = types.UInt64Bytes m -> n = m.
Proof.
  intros Hn Hm Heq.
  pose proof (BigEndian_Uint64_UInt64Bytes n [] Hn) as H1.
  pose proof (BigEndian_Uint64_UInt64Bytes m [] Hm) as H2.
  rewrite Heq in H1. congruence.
Qed.

Lemma UInt64FromBytes_UInt64Bytes (n : Z) (ctx : Context) :
  is_uint64 n -> UInt64FromBytes (types.UInt64Bytes n) ctx = Returned n ctx.
Proof.
  intros Hn. unfold UInt64FromBytes.
  rewrite <- (app_nil_r (types.UInt64Bytes n)).
  by rewrite BigEndian_Uint64_UInt64Bytes.
Qed.

(** ** The key layout *)

Lemma GetAttestationKey_inj (n m : Z) :
  is_uint64 n -> is_uint64 m ->
  types.GetAttestationKey n = types.GetAttestationKey m -> n = m.
Proof.
  intros Hn Hm Heq. unfold types.GetAttestationKey in Heq.
  apply app_inv_head in Heq. by apply UInt64Bytes_inj.
Qed.

Lemma attestation_key_not_latest (n : Z) :
  types.GetAttestationKey n <> bytes_of types.LatestAttestationtNonce.
Proof. discriminate. Qed.

Lemma attestation_key_not_last_pruned (n : Z) :
  types.GetAttestationKey n <> bytes_of types.LastPrunedAttestationNonce.
Proof. discriminate. Qed.

Lemma latest_key_not_last_pruned :
  bytes_of types.LatestAttestationtNonce
  <> bytes_of types.LastPrunedAttestationNonce.
Proof. discriminate. Qed.

(** ** The operations, case by case *)

Lemma StoreAttestation_eq (k : Keeper) at_ ctx :
  StoreAttestation k at_ ctx =
  match KVStore ctx !! types.GetAttestationKey (types.GetNonce at_) with
  | Some _ => Panicked overwrite_panic ctx
  | None =>
      match MarshalInterface (cdc k) at_ with
      | inl err => Panicked (PanicError err) ctx
      | inr b => Returned tt (set_kv ctx (types.GetAttestationKey (types.GetNonce at_)) b)
      end
  end.
Proof.
  unfold StoreAttestation, bind, store_Has.
  destruct (KVStore ctx !! _) as [v|] eqn:Hk.
  - rewrite bool_decide_eq_true_2 by eauto. reflexivity.
  - rewrite bool_decide_eq_false_2 by (intros [? ?]; discriminate).
    destruct (MarshalInterface _ _); reflexivity.
Qed.

Lemma SetLatestAttestationNonce_eq nonce ctx :
  SetLatestAttestationNonce nonce ctx =
  match KVStore ctx !! bytes_of types.LatestAttestationtNonce with
  | None =>
      Returned tt (set_kv ctx (bytes_of types.LatestAttestationtNonce) (types.UInt64Bytes nonce))
  | Some bz =>
      match BigEndian_Uint64 bz with
      | None => Panicked bounds_panic ctx
      | Some latest =>
          if uint64_add latest 1 =? nonce then
            Returned tt (set_kv ctx (bytes_of types.LatestAttestationtNonce) (types.UInt64Bytes nonce))
          else Panicked increment_panic ctx
      end
  end.
Proof.
  unfold SetLatestAttestationNonce, CheckLatestAttestationNonce,
    GetLatestAttestationNonce, UInt64FromBytes, bind, store_Has, store_Get.
  cbn beta iota.
  destruct (KVStore ctx !! _) as [bz|] eqn:Hk.
  - rewrite bool_decide_eq_true_2 by eauto.
    cbn beta iota. rewrite Hk.
    destruct (BigEndian_Uint64 bz) as [latest|]; [|reflexivity].
    unfold ret. destruct (uint64_add latest 1 =? nonce); reflexivity.
  - rewrite bool_decide_eq_false_2 by (intros [? ?]; discriminate).
    reflexivity.
Qed.

Lemma SetAttestationRequest_eq (k : Keeper) at_ ctx :
  SetAttestationRequest k at_ ctx =
  match KVStore ctx !! types.GetAttestationKey (types.GetNonce at_) with
  | Some _ => Panicked overwrite_panic ctx
  | None =>
      match MarshalInterface (cdc k) at_ with
      | inl err => Panicked (PanicError err) ctx
      | inr b =>
          let stored := set_kv ctx (types.GetAttestationKey (types.GetNonce at_)) b in
          match KVStore ctx !! bytes_of types.LatestAttestationtNonce with
          | None => Returned None (appended ctx at_ b)
          | Some bz =>
              match BigEndian_Uint64 bz with
              | None => Panicked bounds_panic stored
              | Some latest =>
                  if uint64_add latest 1 =? types.GetNonce at_ then
                    Returned None (appended ctx at_ b)
                  else Panicked increment_panic stored
              end
          end
      end
  end.
Proof.
  unfold SetAttestationRequest, bind at 1. rewrite StoreAttestation_eq.
  destruct (KVStore ctx !! types.GetAttestationKey _); [reflexivity|].
  destruct (MarshalInterface _ _) as [err|b]; [reflexivity|].
  unfold bind at 1. rewrite SetLatestAttestationNonce_eq.
  cbn [set_kv KVStore].
  rewrite lookup_insert_ne by apply attestation_key_not_latest.
  destruct (KVStore ctx !! bytes_of _) as [bz|]; [|reflexivity].
  destruct (BigEndian_Uint64 bz) as [latest|]; [|reflexivity].
  destruct (uint64_add latest 1 =? _); reflexivity.
Qed.

(** ** Reading an attestation *)

(** C6: [GetAttestationByNonce] never panics and leaves the context as it
    is: an absent key gives (nil, false, nil), stored bytes that fail to
    decode give the decode error [ErrUnmarshalllAttestation], and bytes that
    decode give the attestation with found = true and no error. *)
Theorem GetAttestationByNonce_total (k : Keeper) (nonce : Z) (ctx : Context) :
  exists r,
    GetAttestationByNonce k nonce ctx = Returned r ctx
    /\ match KVStore ctx !! types.GetAttestationKey nonce with
       | None => r = (None, false, None)
       | Some bz =>
           match UnmarshalInterface (cdc k) bz with
           | inl _ => r = (None, false, Some types.ErrUnmarshalllAttestation)
           | inr at_ => r = (Some at_, true, None)
           end
       end.
Proof.
  unfold GetAttestationByNonce, bind, store_Get.
  destruct (KVStore ctx !! _) as [bz|].
  - destruct (UnmarshalInterface _ bz); eexists; split; reflexivity.
  - eexists; split; reflexivity.
Qed.

(** ** The error result of an append *)

Ltac append_cases H :=
  rewrite SetAttestationRequest_eq in H;
  repeat match type of H with
         | match ?x with _ => _ end = _ => destruct x eqn:?
         | (if ?x then _ else _) = _ => destruct x eqn:?
         | (let _ := _ in _) = _ => cbv zeta in H
         end; try discriminate.

Lemma SetAttestationRequest_result (k : Keeper) at_ ctx r ctx' :
  SetAttestationRequest k at_ ctx = Returned r ctx' -> r = None.
Proof. intros H. append_cases H; by injection H as <-. Qed.

(** C10: every [SetAttestationRequest] that returns, returns the nil
    error: each of its failures is a panic. *)
Theorem SetAttestationRequest_returns_nil (k : Keeper) at_ ctx r ctx' :
  SetAttestationRequest k at_ ctx = Returned r ctx' -> r = None.
Proof.
  rewrite SetAttestationRequest_eq.
  destruct (KVStore ctx !! types.GetAttestationKey _); [discriminate|].
  destruct (MarshalInterface _ _) as [err|b]; [discriminate|]. cbv zeta.
  destruct (KVStore ctx !! bytes_of _) as [bz|]; [|congruence].
  destruct (BigEndian_Uint64 bz) as [latest|]; [|discriminate].
  destruct (uint64_add latest 1 =? _); [congruence|discriminate].
Qed.

Lemma SetAttestationRequest_returns_nil_witness :
  SetAttestationRequest qgbKeeper request1 empty_ctx = Returned None ctx1
  /\ (None : option types.error) = None.
Proof.
  split; [vm_compute; reflexivity|].
  apply (SetAttestationRequest_returns_nil qgbKeeper request1 empty_ctx None ctx1).
  vm_compute; reflexivity.
Defined.

(** ** Deleting an attestation *)

Lemma DeleteAttestation_eq nonce ctx :
  DeleteAttestation nonce ctx =
  Returned tt
    (mkContext (delete (types.GetAttestationKey nonce) (KVStore ctx)) (EventManager ctx)).
Proof.
  unfold DeleteAttestation, bind, store_Has, store_Delete, ret.
  destruct (KVStore ctx !! types.GetAttestationKey nonce) as [v|] eqn:Hk.
  - rewrite bool_decide_eq_true_2 by eauto. reflexivity.
  - rewrite bool_decide_eq_false_2 by (intros [? ?]; discriminate).
    cbn. rewrite delete_id by done. by destruct ctx.
Qed.

(** C8: [DeleteAttestation] of a nonce never fails; it removes the entry of
    the nonce and nothing else: it is a no-op when the entry is absent, and
    in both cases the two counters, the events and the entry of every other
    nonce are as before. *)
Theorem DeleteAttestation_frame (n : Z) (ctx : Context) :
  is_uint64 n ->
  exists ctx',
    DeleteAttestation n ctx = Returned tt ctx'
    /\ KVStore ctx' = delete (types.GetAttestationKey n) (KVStore ctx)
    /\ KVStore ctx' !! types.GetAttestationKey n = None
    /\ (KVStore ctx !! types.GetAttestationKey n = None -> ctx' = ctx)
    /\ KVStore ctx' !! bytes_of types.LatestAttestationtNonce
       = KVStore ctx !! bytes_of types.LatestAttestationtNonce
    /\ KVStore ctx' !! bytes_of types.LastPrunedAttestationNonce
       = KVStore ctx !! bytes_of types.LastPrunedAttestationNonce
    /\ EventManager ctx' = EventManager ctx
    /\ forall m, is_uint64 m -> m <> n ->
         KVStore ctx' !! types.GetAttestationKey m
         = KVStore ctx !! types.GetAttestationKey m.
Proof.
  intros Hn. eexists. split; [apply DeleteAttestation_eq|]. cbn.
  split; [reflexivity|].
  split; [apply lookup_delete_eq|].
  split; [intros Habs; rewrite delete_id by done; by destruct ctx|].
  split; [apply lookup_delete_ne, attestation_key_not_latest|].
  split; [apply lookup_delete_ne, attestation_key_not_last_pruned|].
  split; [reflexivity|].
  intros m Hm Hne. apply lookup_delete_ne.
  intros Heq. apply Hne. symmetry. by apply GetAttestationKey_inj.
Qed.

Lemma DeleteAttestation_frame_witness :
  is_uint64 2 /\
  exists ctx',
    DeleteAttestation 2 ctx123 = Returned tt ctx'
    /\ KVStore ctx' = delete (types.GetAttestationKey 2) (KVStore ctx123)
    /\ KVStore ctx' !! types.GetAttestationKey 2 = None
    /\ (KVStore ctx123 !! types.GetAttestationKey 2 = None -> ctx' = ctx123)
    /\ KVStore ctx' !! bytes_of types.LatestAttestationtNonce
       = KVStore ctx123 !! bytes_of types.LatestAttestationtNonce
    /\ KVStore ctx' !! bytes_of types.LastPrunedAttestationNonce
       = KVStore ctx123 !! bytes_of types.LastPrunedAttestationNonce
    /\ EventManager ctx' = EventManager ctx123
    /\ forall m, is_uint64 m -> m <> 2 ->
         KVStore ctx' !! types.GetAttestationKey m
         = KVStore ctx123 !! types.GetAttestationKey m.
Proof.
  assert (H2 : is_uint64 2) by (unfold is_uint64; lia).
  split; [exact H2|].
  apply (DeleteAttestation_frame 2 ctx123 H2).
Defined.

(** ** The existence check of the last pruned nonce *)

Lemma CheckLastPrunedAttestationNonce_is_latest_check ctx :
  CheckLastPrunedAttestationNonce ctx = CheckLatestAttestationNonce ctx.
Proof. reflexivity. Qed.

(** Appends leave the last-pruned key of the store absent. *)
Lemma SetAttestationRequest_last_pruned_key (k : Keeper) at_ ctx r ctx' :
  SetAttestationRequest k at_ ctx = Returned r ctx' ->
  KVStore ctx' !! bytes_of types.LastPrunedAttestationNonce
  = KVStore ctx !! bytes_of types.LastPrunedAttestationNonce.
Proof.
  rewrite SetAttestationRequest_eq. intros H.
  repeat match type of H with
         | match ?x with _ => _ end = _ => destruct x
         | (if ?x then _ else _) = _ => destruct x
         | (let _ := _ in _) = _ => cbv zeta in H
         end; try discriminate; injection H as _ <-;
    unfold appended; cbn [KVStore];
    (rewrite lookup_insert_ne by apply latest_key_not_last_pruned);
    apply lookup_insert_ne, attestation_key_not_last_pruned.
Qed.

(** C1 at the failing input: after the append of nonce 1 to the fresh log
    and no pruning, the last-pruned key is absent from the store, yet
    [CheckLastPrunedAttestationNonce] reports true (it probes the key of the
    latest nonce), and the guarded read [GetLastPrunedNonce] panics on the
    nil counter instead of reporting found = false; on the fresh log both
    guarded reads report found = false. *)
Theorem CheckLastPrunedAttestationNonce_after_append :
  SetAttestationRequest qgbKeeper request1 empty_ctx = Returned None ctx1
  /\ KVStore ctx1 !! bytes_of types.LastPrunedAttestationNonce = None
  /\ CheckLastPrunedAttestationNonce ctx1 = Returned true ctx1
  /\ GetLastPrunedNonce ctx1
     = Panicked (PanicString "nil last pruned attestation nonce") ctx1
  /\ GetLastPrunedNonce empty_ctx = Returned (0, false) empty_ctx
  /\ GetLatestNonce empty_ctx = Returned (0, false) empty_ctx.
Proof. vm_compute. repeat split. Qed.

(** ** Appending *)

(** What a returning append found and what it leaves. *)
Lemma SetAttestationRequest_Returned (k : Keeper) at_ ctx r ctx' :
  SetAttestationRequest k at_ ctx = Returned r ctx' ->
  KVStore ctx !! types.GetAttestationKey (types.GetNonce at_) = None
  /\ (forall bz, KVStore ctx !! bytes_of types.LatestAttestationtNonce = Some bz ->
        exists latest, BigEndian_Uint64 bz = Some latest
                       /\ uint64_add latest 1 = types.GetNonce at_)
  /\ exists b, MarshalInterface (cdc k) at_ = inr b /\ ctx' = appended ctx at_ b.
Proof.
  intros H. append_cases H; injection H as _ <-.
  - split; [done|]. split; [|eauto].
    intros bz' [= <-]. eexists. split; [done|]. by apply Z.eqb_eq.
  - split; [done|]. split; [|eauto]. intros bz' [=].
Qed.

(** The state at the point an append panics. *)
Lemma SetAttestationRequest_Panicked (k : Keeper) at_ ctx v ctx' :
  SetAttestationRequest k at_ ctx = Panicked v ctx' ->
  (ctx' = ctx
   /\ ((v = overwrite_panic
        /\ is_Some (KVStore ctx !! types.GetAttestationKey (types.GetNonce at_)))
       \/ (exists err, v = PanicError err /\ MarshalInterface (cdc k) at_ = inl err)))
  \/ (exists b,
        KVStore ctx !! types.GetAttestationKey (types.GetNonce at_) = None
        /\ MarshalInterface (cdc k) at_ = inr b
        /\ ctx' = set_kv ctx (types.GetAttestationKey (types.GetNonce at_)) b
        /\ (v = increment_panic \/ v = bounds_panic)).
Proof.
  intros H. append_cases H; injection H as <- <-.
  - left. split; [done|]. left. eauto.
  - left. split; [done|]. right. eauto.
  - right. eexists. eauto.
  - right. eexists. eauto.
Qed.

(** An append that returns leaves every entry that was stored as it was. *)
Lemma SetAttestationRequest_keeps_entries (k : Keeper) at_ ctx r ctx' (n : Z) :
  SetAttestationRequest k at_ ctx = Returned r ctx' ->
  is_Some (KVStore ctx !! types.GetAttestationKey n) ->
  KVStore ctx' !! types.GetAttestationKey n = KVStore ctx !! types.GetAttestationKey n.
Proof.
  intros H [v Hv].
  apply SetAttestationRequest_Returned in H as (Habs & _ & b & _ & ->).
  unfold appended; cbn [KVStore].
  rewrite lookup_insert_ne by (apply not_eq_sym, attestation_key_not_latest).
  apply lookup_insert_ne. congruence.
Qed.

Lemma SetAttestationRequest_stores (k : Keeper) at_ ctx r ctx' :
  SetAttestationRequest k at_ ctx = Returned r ctx' ->
  exists b, MarshalInterface (cdc k) at_ = inr b
            /\ KVStore ctx' !! types.GetAttestationKey (types.GetNonce at_) = Some b.
Proof.
  intros H.
  apply SetAttestationRequest_Returned in H as (_ & _ & b & Hb & ->).
  exists b. split; [done|]. unfold appended; cbn [KVStore].
  rewrite lookup_insert_ne by (apply not_eq_sym, attestation_key_not_latest).
  apply lookup_insert_eq.
Qed.

Lemma Appends_cons (k : Keeper) at_ ats ctx ctx' :
  Appends k (at_ :: ats) ctx = Returned tt ctx' ->
  exists mid, SetAttestationRequest k at_ ctx = Returned None mid
              /\ Appends k ats mid = Returned tt ctx'.
Proof.
  cbn [Appends]. unfold bind at 1.
  destruct (SetAttestationRequest k at_ ctx) as [r mid|] eqn:Hs; [|discriminate].
  intros H. exists mid. split; [|done].
  by rewrite (SetAttestationRequest_result _ _ _ _ _ Hs) in *.
Qed.

Lemma Appends_keeps_entries (k : Keeper) ats ctx ctx' (n : Z) :
  Appends k ats ctx = Returned tt ctx' ->
  is_Some (KVStore ctx !! types.GetAttestationKey n) ->
  KVStore ctx' !! types.GetAttestationKey n = KVStore ctx !! types.GetAttestationKey n.
Proof.
  revert ctx. induction ats as [|at_ ats IH]; intros ctx H Hn.
  - by injection H as <-.
  - apply Appends_cons in H as (mid & Hs & Hrest).
    pose proof (SetAttestationRequest_keeps_entries _ _ _ _ _ n Hs Hn) as Hmid.
    rewrite <- Hmid. apply IH; [done|]. by rewrite Hmid.
Qed.

(** C3 as amended: at the point [SetAttestationRequest] panics, either
    nothing has changed (overwrite of an existing key, or a marshalling
    error), or the panic comes from the check of the latest nonce and then
    exactly the entry of the request's nonce, absent before, has been
    written: both counters, every other key and the events are as before.
    Discarding that write is left to the transaction of the store. *)
Theorem SetAttestationRequest_abort_state (k : Keeper) at_ ctx v ctx' :
  SetAttestationRequest k at_ ctx = Panicked v ctx' ->
  ((v = overwrite_panic \/ exists err, v = PanicError err) /\ ctx' = ctx)
  \/ ((v = increment_panic \/ v = bounds_panic)
      /\ KVStore ctx !! types.GetAttestationKey (types.GetNonce at_) = None
      /\ (exists b, MarshalInterface (cdc k) at_ = inr b
                    /\ KVStore ctx'
                       = <[types.GetAttestationKey (types.GetNonce at_) := b]> (KVStore ctx))
      /\ EventManager ctx' = EventManager ctx
      /\ KVStore ctx' !! bytes_of types.LatestAttestationtNonce
         = KVStore ctx !! bytes_of types.LatestAttestationtNonce
      /\ KVStore ctx' !! bytes_of types.LastPrunedAttestationNonce
         = KVStore ctx !! bytes_of types.LastPrunedAttestationNonce).
Proof.
  intros H.
  apply SetAttestationRequest_Panicked in H
    as [[-> [[-> _]|(err & -> & _)]] | (b & Habs & Hb & -> & Hv)].
  - left. eauto.
  - left. eauto.
  - right. split; [done|]. split; [done|]. split; [eauto|].
    split; [done|]. unfold set_kv; cbn [KVStore].
    split; apply lookup_insert_ne;
      [apply attestation_key_not_latest | apply attestation_key_not_last_pruned].
Qed.

Lemma SetAttestationRequest_abort_state_witness :
  SetAttestationRequest qgbKeeper request3 ctx1 = Panicked increment_panic ctx1_aborted
  /\ (((increment_panic = overwrite_panic \/ exists err, increment_panic = PanicError err) /\ ctx1_aborted = ctx1)
  \/ ((increment_panic = increment_panic \/ increment_panic = bounds_panic)
      /\ KVStore ctx1 !! types.GetAttestationKey (types.GetNonce request3) = None
      /\ (exists b, MarshalInterface (cdc qgbKeeper) request3 = inr b
                    /\ KVStore ctx1_aborted
                       = <[types.GetAttestationKey (types.GetNonce request3) := b]> (KVStore ctx1))
      /\ EventManager ctx1_aborted = EventManager ctx1
      /\ KVStore ctx1_aborted !! bytes_of types.LatestAttestationtNonce
         = KVStore ctx1 !! bytes_of types.LatestAttestationtNonce
      /\ KVStore ctx1_aborted !! bytes_of types.LastPrunedAttestationNonce
         = KVStore ctx1 !! bytes_of types.LastPrunedAttestationNonce)).
Proof.
  assert (H : SetAttestationRequest qgbKeeper request3 ctx1
              = Panicked increment_panic ctx1_aborted)
    by (vm_compute; reflexivity).
  split; [exact H|].
  exact (SetAttestationRequest_abort_state qgbKeeper request3 ctx1
           increment_panic ctx1_aborted H).
Defined.

(** C3 as stated fails: appending nonce 3 to the log that holds nonce 1
    panics on the latest-nonce check after the entry of nonce 3 has been
    written, so the context at the panic is not the one before the call. *)
Lemma append_abort_mutates_store :
  ~ (forall v ctx',
       SetAttestationRequest qgbKeeper request3 ctx1 = Panicked v ctx' ->
       ctx' = ctx1).
Proof.
  intros H.
  assert (Heq : ctx1_aborted = ctx1)
    by (apply (H increment_panic); vm_compute; reflexivity).
  apply (f_equal (fun c => KVStore c !! types.GetAttestationKey 3)) in Heq.
  vm_compute in Heq. discriminate.
Qed.

(** ** Immutability of stored attestations *)

Lemma apply_op_keeps_entry (k : Keeper) op ctx ctx' (n : Z) :
  is_uint64 n -> keeps_nonce n op ->
  apply_op k op ctx = Returned tt ctx' ->
  is_Some (KVStore ctx !! types.GetAttestationKey n) ->
  KVStore ctx' !! types.GetAttestationKey n = KVStore ctx !! types.GetAttestationKey n.
Proof.
  intros Hn Hop Hrun Hsome. destruct op as [at_|m|m]; cbn [apply_op keeps_nonce] in *.
  - unfold bind in Hrun.
    destruct (SetAttestationRequest k at_ ctx) as [r mid|] eqn:Hs; [|discriminate].
    injection Hrun as <-. by eapply SetAttestationRequest_keeps_entries.
  - rewrite DeleteAttestation_eq in Hrun. injection Hrun as <-. cbn [KVStore].
    destruct Hop as [Hm Hne]. apply lookup_delete_ne.
    intros Heq. apply Hne. by apply GetAttestationKey_inj.
  - injection Hrun as <-. cbn [KVStore].
    apply lookup_insert_ne, not_eq_sym, attestation_key_not_last_pruned.
Qed.

Lemma run_ops_keeps_entry (k : Keeper) ops ctx ctx' (n : Z) :
  is_uint64 n -> Forall (keeps_nonce n) ops ->
  run_ops k ops ctx = Returned tt ctx' ->
  is_Some (KVStore ctx !! types.GetAttestationKey n) ->
  KVStore ctx' !! types.GetAttestationKey n = KVStore ctx !! types.GetAttestationKey n.
Proof.
  intros Hn Hops. revert ctx.
  induction Hops as [|op ops Hop _ IH]; intros ctx Hrun Hsome.
  - by injection Hrun as <-.
  - cbn [run_ops] in Hrun. unfold bind at 1 in Hrun.
    destruct (apply_op k op ctx) as [[] mid|] eqn:Hstep; [|discriminate].
    pose proof (apply_op_keeps_entry _ _ _ _ _ Hn Hop Hstep Hsome) as Hmid.
    rewrite <- Hmid. apply IH; [done|]. by rewrite Hmid.
Qed.

(** C4: once an append with nonce n has returned, every later append with
    nonce n (after any further appends, prunings of other nonces and
    advances of the last pruned nonce that returned) panics on the existing
    key, leaving the context as it is, and the entry stored under n is the
    one the first append wrote. *)
Theorem SetAttestationRequest_never_overwrites
    (k : Keeper) at_ ctx mid ops ctx' at' :
  is_uint64 (types.GetNonce at_) ->
  SetAttestationRequest k at_ ctx = Returned None mid ->
  Forall (keeps_nonce (types.GetNonce at_)) ops ->
  run_ops k ops mid = Returned tt ctx' ->
  types.GetNonce at' = types.GetNonce at_ ->
  SetAttestationRequest k at' ctx' = Panicked overwrite_panic ctx'
  /\ exists b, MarshalInterface (cdc k) at_ = inr b
               /\ KVStore mid !! types.GetAttestationKey (types.GetNonce at_) = Some b
               /\ KVStore ctx' !! types.GetAttestationKey (types.GetNonce at_) = Some b.
Proof.
  intros Hu Hfirst Hops Hrest Hnonce.
  destruct (SetAttestationRequest_stores _ _ _ _ _ Hfirst) as (b & Hb & Hmid).
  assert (Hkept : KVStore ctx' !! types.GetAttestationKey (types.GetNonce at_) = Some b).
  { rewrite <- Hmid. eapply run_ops_keeps_entry; [done..|]. rewrite Hmid. eauto. }
  split; [|eauto].
  rewrite SetAttestationRequest_eq, Hnonce, Hkept. reflexivity.
Qed.

Lemma SetAttestationRequest_never_overwrites_witness :
  is_uint64 (types.GetNonce request1)
  /\ SetAttestationRequest qgbKeeper request1 empty_ctx = Returned None ctx1
  /\ Forall (keeps_nonce (types.GetNonce request1)) ops_later
  /\ run_ops qgbKeeper ops_later ctx1 = Returned tt ctx_later
  /\ types.GetNonce (types.Valset 1 [7] 9) = types.GetNonce request1
  /\ SetAttestationRequest qgbKeeper (types.Valset 1 [7] 9) ctx_later
     = Panicked overwrite_panic ctx_later
  /\ exists b, MarshalInterface (cdc qgbKeeper) request1 = inr b
               /\ KVStore ctx1 !! types.GetAttestationKey (types.GetNonce request1) = Some b
               /\ KVStore ctx_later !! types.GetAttestationKey (types.GetNonce request1) = Some b.
Proof.
  assert (H0 : is_uint64 (types.GetNonce request1)) by (cbn; unfold is_uint64; lia).
  assert (H1 : SetAttestationRequest qgbKeeper request1 empty_ctx = Returned None ctx1)
    by (vm_compute; reflexivity).
  assert (H2 : Forall (keeps_nonce (types.GetNonce request1)) ops_later).
  { unfold ops_later. repeat constructor; unfold is_uint64; cbn; lia. }
  assert (H3 : run_ops qgbKeeper ops_later ctx1 = Returned tt ctx_later)
    by (vm_compute; reflexivity).
  assert (H4 : types.GetNonce (types.Valset 1 [7] 9) = types.GetNonce request1)
    by reflexivity.
  split; [exact H0|]. split; [exact H1|]. split; [exact H2|].
  split; [exact H3|]. split; [exact H4|].
  exact (SetAttestationRequest_never_overwrites qgbKeeper request1 empty_ctx ctx1
           ops_later ctx_later (types.Valset 1 [7] 9) H0 H1 H2 H3 H4).
Defined.

(** ** The nonce discipline of appends *)

Lemma BigEndian_Uint64_UInt64Bytes_is_Some (n : Z) :
  is_Some (BigEndian_Uint64 (types.UInt64Bytes n)).
Proof. unfold types.UInt64Bytes, BigEndian_Uint64. eauto. Qed.

Lemma LatestNonce_appended ctx at_ b :
  is_uint64 (types.GetNonce at_) ->
  LatestNonce (appended ctx at_ b) = Some (types.GetNonce at_).
Proof.
  intros Hn. unfold LatestNonce, counter, appended; cbn [KVStore].
  rewrite lookup_insert_eq. cbn [mbind option_bind].
  rewrite <- (app_nil_r (types.UInt64Bytes _)).
  by apply BigEndian_Uint64_UInt64Bytes.
Qed.

Lemma counters_wf_appended ctx at_ b :
  counters_wf ctx -> counters_wf (appended ctx at_ b).
Proof.
  intros [Hl Hp]. split; intros bz; unfold appended; cbn [KVStore].
  - rewrite lookup_insert_eq. intros [= <-].
    apply BigEndian_Uint64_UInt64Bytes_is_Some.
  - rewrite lookup_insert_ne by apply latest_key_not_last_pruned.
    rewrite lookup_insert_ne by apply attestation_key_not_last_pruned.
    apply Hp.
Qed.

Lemma uint64_add_range (a b : Z) : is_uint64 (uint64_add a b).
Proof. unfold is_uint64, uint64_add. apply Z.mod_pos_bound. lia. Qed.

(** One returning append: the nonce follows the counter, and becomes it. *)
Lemma SetAttestationRequest_advances (k : Keeper) at_ ctx r ctx' :
  counters_wf ctx ->
  SetAttestationRequest k at_ ctx = Returned r ctx' ->
  counters_wf ctx'
  /\ (forall latest, LatestNonce ctx = Some latest ->
        types.GetNonce at_ = uint64_add latest 1
        /\ LatestNonce ctx' = Some (uint64_add latest 1))
  /\ (is_uint64 (types.GetNonce at_) -> LatestNonce ctx' = Some (types.GetNonce at_)).
Proof.
  intros Hwf H.
  apply SetAttestationRequest_Returned in H as (_ & Hlatest & b & _ & ->).
  split; [by apply counters_wf_appended|].
  split; [|apply LatestNonce_appended].
  intros latest Hl. unfold LatestNonce, counter in Hl.
  destruct (KVStore ctx !! bytes_of types.LatestAttestationtNonce) as [bz|] eqn:Hk;
    [|discriminate].
  destruct (Hlatest bz eq_refl) as (l & Hbz & Hnonce).
  cbn in Hl. rewrite Hbz in Hl. injection Hl as ->.
  split; [done|]. rewrite Hnonce. apply LatestNonce_appended.
  rewrite <- Hnonce. apply uint64_add_range.
Qed.

Lemma SetAttestationRequest_panics_iff (k : Keeper) at_ ctx :
  counters_wf ctx ->
  panics (SetAttestationRequest k at_ ctx)
  <-> has_attestation ctx (types.GetNonce at_)
      \/ (exists err, MarshalInterface (cdc k) at_ = inl err)
      \/ (exists latest, LatestNonce ctx = Some latest
                         /\ uint64_add latest 1 <> types.GetNonce at_).
Proof.
  intros [Hwf _]. rewrite SetAttestationRequest_eq.
  unfold has_attestation, LatestNonce, counter, counter_wf in *.
  destruct (KVStore ctx !! types.GetAttestationKey _) as [v|] eqn:Hk.
  { cbn. split; [eauto|done]. }
  destruct (MarshalInterface (cdc k) at_) as [err|b] eqn:Hm.
  { cbn. split; [eauto|done]. }
  cbv zeta.
  destruct (KVStore ctx !! bytes_of types.LatestAttestationtNonce) as [bz|] eqn:Hl.
  - destruct (Hwf bz eq_refl) as [latest Hbz]. rewrite Hbz. cbn [mbind option_bind].
    rewrite Hbz.
    destruct (Z.eqb_spec (uint64_add latest 1) (types.GetNonce at_)) as [Heq|Hne]; cbn.
    + split; [done|].
      intros [[? [=]] | [[? [=]] | (l & [= <-] & Hne)]]. done.
    + split; [|done]. intros _. right. right. eauto.
  - cbn. split; [done|].
    intros [[? [=]] | [[? [=]] | (l & [=] & _)]].
Qed.

Lemma Appends_fresh (k : Keeper) ats ctx ctx' :
  Appends k ats ctx = Returned tt ctx' ->
  Forall (fun a => KVStore ctx !! types.GetAttestationKey (types.GetNonce a) = None) ats.
Proof.
  revert ctx. induction ats as [|at_ ats IH]; intros ctx H; [constructor|].
  apply Appends_cons in H as (mid & Hs & Hrest).
  constructor.
  - by apply SetAttestationRequest_Returned in Hs as (? & _).
  - specialize (IH _ Hrest). eapply Forall_impl; [exact IH|].
    intros a Hmid. cbv beta in Hmid.
    destruct (KVStore ctx !! types.GetAttestationKey (types.GetNonce a)) eqn:Hk; [|done].
    rewrite (SetAttestationRequest_keeps_entries _ _ _ _ _ _ Hs) in Hmid
      by (rewrite Hk; eauto).
    congruence.
Qed.

Lemma Appends_nonces (k : Keeper) ats ctx ctx' :
  counters_wf ctx ->
  Forall (fun a => is_uint64 (types.GetNonce a)) ats ->
  Appends k ats ctx = Returned tt ctx' ->
  consecutive (LatestNonce ctx) (types.GetNonce <$> ats)
  /\ NoDup (types.GetNonce <$> ats)
  /\ LatestNonce ctx' = latest_after (LatestNonce ctx) (types.GetNonce <$> ats)
  /\ Forall (fun a => exists b,
               MarshalInterface (cdc k) a = inr b
               /\ KVStore ctx' !! types.GetAttestationKey (types.GetNonce a) = Some b) ats.
Proof.
  revert ctx. induction ats as [|at_ ats IH]; intros ctx Hwf Hu H.
  - injection H as <-. cbn. repeat split; constructor.
  - apply Appends_cons in H as (mid & Hs & Hrest).
    apply Forall_cons in Hu as [Hu1 Hu].
    destruct (SetAttestationRequest_advances _ _ _ _ _ Hwf Hs) as (Hwf' & Hstep & Hnew).
    specialize (Hnew Hu1).
    destruct (IH mid Hwf' Hu Hrest) as (Hc & Hnd & Hl & Hst).
    rewrite Hnew in Hc, Hl. cbn [fmap list_fmap consecutive latest_after].
    split; [split; [|exact Hc]|].
    { destruct (LatestNonce ctx) as [latest|] eqn:Hlat; [|done].
      by destruct (Hstep latest eq_refl). }
    split.
    { constructor; [|exact Hnd].
      intros Hin. apply list_elem_of_fmap in Hin as (a & Hna & Hin).
      pose proof (Appends_fresh _ _ _ _ Hrest) as Hfresh.
      rewrite Forall_forall in Hfresh. specialize (Hfresh a Hin).
      destruct (SetAttestationRequest_stores _ _ _ _ _ Hs) as (b & _ & Hb).
      rewrite <- Hna in Hfresh. congruence. }
    split; [exact Hl|].
    constructor; [|exact Hst].
    destruct (SetAttestationRequest_stores _ _ _ _ _ Hs) as (b & Hm & Hb).
    exists b. split; [done|]. rewrite <- Hb.
    eapply Appends_keeps_entries; [done|]. rewrite Hb. eauto.
Qed.

(** C2 as amended: on a log whose counters are well formed,
    [SetAttestationRequest] panics exactly when the key of the request's
    nonce already holds a value, or marshalling fails, or the latest-nonce
    counter is set and the nonce is not that counter plus one (modulo 2^64);
    with the counter unset every nonce is accepted and initializes it.  An
    append that returns with the counter set advances it by exactly one, and
    the nonces of a run of returning appends are consecutive from the first
    one supplied, without repeats, each stored under its key. *)
Theorem SetAttestationRequest_nonce_discipline (k : Keeper) (ctx : Context) :
  counters_wf ctx ->
  (forall at_,
      panics (SetAttestationRequest k at_ ctx)
      <-> has_attestation ctx (types.GetNonce at_)
          \/ (exists err, MarshalInterface (cdc k) at_ = inl err)
          \/ (exists latest, LatestNonce ctx = Some latest
                             /\ uint64_add latest 1 <> types.GetNonce at_))
  /\ (forall at_ r ctx' latest,
        LatestNonce ctx = Some latest ->
        SetAttestationRequest k at_ ctx = Returned r ctx' ->
        types.GetNonce at_ = uint64_add latest 1
        /\ LatestNonce ctx' = Some (uint64_add latest 1))
  /\ (forall ats ctx',
        Forall (fun a => is_uint64 (types.GetNonce a)) ats ->
        Appends k ats ctx = Returned tt ctx' ->
        consecutive (LatestNonce ctx) (types.GetNonce <$> ats)
        /\ NoDup (types.GetNonce <$> ats)
        /\ LatestNonce ctx' = latest_after (LatestNonce ctx) (types.GetNonce <$> ats)
        /\ Forall (fun a => exists b,
                     MarshalInterface (cdc k) a = inr b
                     /\ KVStore ctx' !! types.GetAttestationKey (types.GetNonce a) = Some b)
             ats).
Proof.
  intros Hwf. split; [|split].
  - intros at_. by apply SetAttestationRequest_panics_iff.
  - intros at_ r ctx' latest Hl Hs.
    destruct (SetAttestationRequest_advances _ _ _ _ _ Hwf Hs) as (_ & Hstep & _).
    by apply Hstep.
  - intros ats ctx' Hu Hrun. by apply Appends_nonces.
Qed.

Lemma counters_wf_empty : counters_wf empty_ctx.
Proof. split; intros bz; cbn; rewrite lookup_empty; discriminate. Qed.

Lemma counters_wf_ctx1 : counters_wf ctx1.
Proof.
  split; intros bz Hbz; vm_compute in Hbz.
  - injection Hbz as <-. vm_compute. eauto.
  - discriminate.
Qed.

Lemma SetAttestationRequest_nonce_discipline_witness :
  counters_wf ctx1
  /\ (panics (SetAttestationRequest qgbKeeper request3 ctx1)
      <-> has_attestation ctx1 (types.GetNonce request3)
          \/ (exists err, MarshalInterface (cdc qgbKeeper) request3 = inl err)
          \/ (exists latest, LatestNonce ctx1 = Some latest
                             /\ uint64_add latest 1 <> types.GetNonce request3))
  /\ LatestNonce ctx1 = Some 1
  /\ SetAttestationRequest qgbKeeper request2 ctx1 = Returned None ctx12
  /\ (types.GetNonce request2 = uint64_add 1 1
      /\ LatestNonce ctx12 = Some (uint64_add 1 1))
  /\ Forall (fun a => is_uint64 (types.GetNonce a)) [request2; request3]
  /\ Appends qgbKeeper [request2; request3] ctx1 = Returned tt ctx123
  /\ (consecutive (LatestNonce ctx1) (types.GetNonce <$> [request2; request3])
      /\ NoDup (types.GetNonce <$> [request2; request3])
      /\ LatestNonce ctx123
         = latest_after (LatestNonce ctx1) (types.GetNonce <$> [request2; request3])
      /\ Forall (fun a => exists b,
                   MarshalInterface (cdc qgbKeeper) a = inr b
                   /\ KVStore ctx123 !! types.GetAttestationKey (types.GetNonce a) = Some b)
           [request2; request3]).
Proof.
  assert (Hl : LatestNonce ctx1 = Some 1) by (vm_compute; reflexivity).
  assert (Hs : SetAttestationRequest qgbKeeper request2 ctx1 = Returned None ctx12)
    by (vm_compute; reflexivity).
  assert (Hu : Forall (fun a => is_uint64 (types.GetNonce a)) [request2; request3])
    by (repeat constructor; cbn; lia).
  assert (Hr : Appends qgbKeeper [request2; request3] ctx1 = Returned tt ctx123)
    by (vm_compute; reflexivity).
  destruct (SetAttestationRequest_nonce_discipline qgbKeeper ctx1 counters_wf_ctx1)
    as (Hiff & Hstep & Hrun).
  split; [exact counters_wf_ctx1|]. split; [exact (Hiff request3)|].
  split; [exact Hl|]. split; [exact Hs|].
  split; [exact (Hstep request2 None ctx12 1 Hl Hs)|].
  split; [exact Hu|]. split; [exact Hr|].
  exact (Hrun [request2; request3] ctx123 Hu Hr).
Defined.

(** C2 as stated fails: on the fresh log, where no attestation exists, the
    append of a request with nonce 5 returns although 5 is not 1. *)
Lemma first_append_accepts_any_nonce :
  ~ (panics (SetAttestationRequest qgbKeeper request5 empty_ctx)
     <-> ~ spec_append_precondition empty_ctx request5).
Proof.
  intros [_ H].
  assert (Hp : panics (SetAttestationRequest qgbKeeper request5 empty_ctx)).
  { apply H. vm_compute. discriminate. }
  vm_compute in Hp. exact Hp.
Qed.

(** ** The codec round trip *)

Lemma read_uint64_UInt64Bytes (n : Z) (rest : bytes) :
  is_uint64 n -> codec.read_uint64 (types.UInt64Bytes n ++ rest) = Some (n, rest).
Proof.
  intros Hn. unfold codec.read_uint64.
  by rewrite BigEndian_Uint64_UInt64Bytes.
Qed.

Lemma read_uint64s_flat_map (ps : list Z) (rest : bytes) :
  Forall is_uint64 ps ->
  codec.read_uint64s (length ps) (flat_map types.UInt64Bytes ps ++ rest)
  = Some (ps, rest).
Proof.
  induction 1 as [|p ps Hp _ IH]; [reflexivity|].
  cbn [length flat_map codec.read_uint64s].
  rewrite <- app_assoc, read_uint64_UInt64Bytes by done.
  by rewrite IH.
Qed.

Lemma Unmarshal_Marshal (at_ : types.AttestationRequestI) :
  types.wf_request at_ ->
  exists b, codec.Marshal at_ = inr b /\ codec.Unmarshal b = inr at_.
Proof.
  destruct at_ as [n ps h | n root b e]; cbn [types.wf_request codec.Marshal].
  - intros (Hn & Hh & Hps & Hlen). eexists. split; [reflexivity|].
    cbn [codec.Unmarshal]. rewrite decide_True by reflexivity.
    rewrite !read_uint64_UInt64Bytes by done.
    rewrite Nat2Z.id.
    rewrite <- (app_nil_r (flat_map _ ps)), read_uint64s_flat_map by done.
    reflexivity.
  - intros (Hn & Hb & He). eexists. split; [reflexivity|].
    cbn [codec.Unmarshal]. rewrite decide_False by discriminate.
    rewrite decide_True by reflexivity.
    rewrite !read_uint64_UInt64Bytes by done.
    reflexivity.
Qed.

(** What an append stored is what the read of its nonce decodes. *)
Lemma GetAttestationByNonce_after_append (k : Keeper) at_ ctx r ctx' b :
  MarshalInterface (cdc k) at_ = inr b ->
  UnmarshalInterface (cdc k) b = inr at_ ->
  SetAttestationRequest k at_ ctx = Returned r ctx' ->
  GetAttestationByNonce k (types.GetNonce at_) ctx'
  = Returned (Some at_, true, None) ctx'.
Proof.
  intros Hm Hu Hs.
  destruct (SetAttestationRequest_stores _ _ _ _ _ Hs) as (b' & Hm' & Hb).
  assert (b' = b) as -> by congruence.
  unfold GetAttestationByNonce, bind, store_Get. by rewrite Hb, Hu.
Qed.

(** C9: for every request of either variant, with its fields in their
    [uint64] range, unmarshalling the marshalled bytes gives the request
    back, variant included; and after an append of the request returned, the
    read of its nonce returns that request, found, with no error. *)
Theorem Marshal_round_trip (at_ : types.AttestationRequestI) :
  types.wf_request at_ ->
  (exists b, MarshalInterface (cdc qgbKeeper) at_ = inr b
             /\ UnmarshalInterface (cdc qgbKeeper) b = inr at_)
  /\ forall ctx r ctx',
       SetAttestationRequest qgbKeeper at_ ctx = Returned r ctx' ->
       GetAttestationByNonce qgbKeeper (types.GetNonce at_) ctx'
       = Returned (Some at_, true, None) ctx'.
Proof.
  intros Hwf. destruct (Unmarshal_Marshal at_ Hwf) as (b & Hm & Hu).
  split; [eauto|].
  intros ctx r ctx'. by apply (GetAttestationByNonce_after_append qgbKeeper _ _ _ _ b).
Qed.

Lemma wf_request2 : types.wf_request request2.
Proof.
  unfold request2, types.wf_request, is_uint64. cbn [length].
  split; [lia|]. split; [lia|]. split; [|lia].
  repeat constructor; lia.
Qed.

Lemma Marshal_round_trip_witness :
  types.wf_request request2
  /\ (exists b, MarshalInterface (cdc qgbKeeper) request2 = inr b
                /\ UnmarshalInterface (cdc qgbKeeper) b = inr request2)
  /\ SetAttestationRequest qgbKeeper request2 ctx1 = Returned None ctx12
  /\ GetAttestationByNonce qgbKeeper (types.GetNonce request2) ctx12
     = Returned (Some request2, true, None) ctx12.
Proof.
  assert (Hs : SetAttestationRequest qgbKeeper request2 ctx1 = Returned None ctx12)
    by (vm_compute; reflexivity).
  destruct (Marshal_round_trip request2 wf_request2) as [Hrt Hget].
  split; [exact wf_request2|]. split; [exact Hrt|]. split; [exact Hs|].
  exact (Hget ctx1 None ctx12 Hs).
Defined.

(** ** Pruning *)

Lemma BigEndian_Uint64_nonneg (bz : bytes) (v : Z) :
  BigEndian_Uint64 bz = Some v -> 0 <= v.
Proof.
  unfold BigEndian_Uint64.
  repeat (destruct bz as [|? bz]; [discriminate|]).
  intros [= <-].
  repeat (apply Z.lor_nonneg; split);
    try apply Z.shiftl_nonneg; apply N2Z.is_nonneg.
Qed.

Lemma counter_nonneg key ctx : 0 <= default 0 (counter key ctx).
Proof.
  unfold counter.
  destruct (KVStore ctx !! bytes_of key) as [bz|]; cbn; [|lia].
  destruct (BigEndian_Uint64 bz) as [v|] eqn:Hv; cbn; [|lia].
  by eapply BigEndian_Uint64_nonneg.
Qed.

(** [delete_range] returns; it removes the entries of its nonces and
    leaves every other key, and the events, as they were. *)
Lemma delete_range_spec (count : nat) (from : Z) (ctx : Context) :
  exists ctx',
    delete_range from count ctx = Returned tt ctx'
    /\ EventManager ctx' = EventManager ctx
    /\ (forall j, from <= j < from + Z.of_nat count ->
          KVStore ctx' !! types.GetAttestationKey j = None)
    /\ (forall key,
          (forall j, from <= j < from + Z.of_nat count -> key <> types.GetAttestationKey j) ->
          KVStore ctx' !! key = KVStore ctx !! key)
    /\ (forall key, KVStore ctx !! key = None -> KVStore ctx' !! key = None).
Proof.
  revert from ctx. induction count as [|count IH]; intros from ctx.
  - exists ctx. cbn. repeat split; try done. intros; lia.
  - cbn [delete_range]. unfold bind at 1. rewrite DeleteAttestation_eq.
    destruct (IH (from + 1)
                (mkContext (delete (types.GetAttestationKey from) (KVStore ctx))
                   (EventManager ctx)))
      as (ctx' & Hrun & Hev & Hgone & Hother & Hnone).
    cbn [KVStore EventManager] in *.
    exists ctx'. split; [exact Hrun|]. split; [exact Hev|].
    split; [|split].
    + intros j Hj. destruct (Z.eq_dec j from) as [->|Hne].
      * apply Hnone, lookup_delete_eq.
      * apply Hgone. lia.
    + intros key Hkey. rewrite Hother by (intros j Hj; apply Hkey; lia).
      apply lookup_delete_ne, not_eq_sym, Hkey. lia.
    + intros key Habs. apply Hnone.
      rewrite lookup_delete. by case_decide.
Qed.

(** The pruning composition returns; what it leaves in the store. *)
Lemma PruneUpTo_spec (target : Z) (ctx : Context) :
  exists ctx',
    PruneUpTo target ctx = Returned tt ctx'
    /\ EventManager ctx' = EventManager ctx
    /\ KVStore ctx' !! bytes_of types.LastPrunedAttestationNonce
       = Some (types.UInt64Bytes target)
    /\ KVStore ctx' !! bytes_of types.LatestAttestationtNonce
       = KVStore ctx !! bytes_of types.LatestAttestationtNonce
    /\ (forall j, default 0 (LastPrunedNonce ctx) < j <= target ->
          KVStore ctx' !! types.GetAttestationKey j = None)
    /\ (forall j, KVStore ctx !! types.GetAttestationKey j = None ->
          KVStore ctx' !! types.GetAttestationKey j = None)
    /\ (forall j, is_uint64 j -> is_uint64 target -> target < j ->
          KVStore ctx' !! types.GetAttestationKey j
          = KVStore ctx !! types.GetAttestationKey j).
Proof.
  unfold PruneUpTo. cbv zeta. unfold bind.
  set (lo := default 0 (LastPrunedNonce ctx)).
  assert (Hlo : 0 <= lo) by apply counter_nonneg.
  destruct (delete_range_spec (Z.to_nat (target - lo)) (lo + 1) ctx)
    as (mid & -> & Hev & Hgone & Hother & Hnone).
  unfold SetLastPrunedAttestationNonce, store_Set.
  eexists. split; [reflexivity|]. cbn [KVStore EventManager].
  split; [exact Hev|].
  split; [apply lookup_insert_eq|].
  split.
  { rewrite lookup_insert_ne by (apply not_eq_sym, latest_key_not_last_pruned).
    apply Hother. intros j _. apply not_eq_sym, attestation_key_not_latest. }
  split.
  { intros j Hj.
    rewrite lookup_insert_ne by (apply not_eq_sym, attestation_key_not_last_pruned).
    apply Hgone. lia. }
  split.
  { intros j Hj.
    rewrite lookup_insert_ne by (apply not_eq_sym, attestation_key_not_last_pruned).
    by apply Hnone. }
  intros j Hj Ht Hlt.
  rewrite lookup_insert_ne by (apply not_eq_sym, attestation_key_not_last_pruned).
  apply Hother. intros i Hi Heq.
  apply GetAttestationKey_inj in Heq; [lia|done|].
  unfold is_uint64 in *. lia.
Qed.

Lemma GetAttestationByNonce_eq (k : Keeper) (nonce : Z) (ctx : Context) :
  GetAttestationByNonce k nonce ctx =
  Returned
    match KVStore ctx !! types.GetAttestationKey nonce with
    | None => (None, false, None)
    | Some bz =>
        match UnmarshalInterface (cdc k) bz with
        | inl _ => (None, false, Some types.ErrUnmarshalllAttestation)
        | inr at_ => (Some at_, true, None)
        end
    end ctx.
Proof.
  unfold GetAttestationByNonce, bind, store_Get.
  destruct (KVStore ctx !! _) as [bz|]; [|reflexivity].
  destruct (UnmarshalInterface _ bz); reflexivity.
Qed.

Lemma counter_Some_lookup key ctx v :
  counter key ctx = Some v -> is_Some (KVStore ctx !! bytes_of key).
Proof.
  unfold counter. destruct (KVStore ctx !! bytes_of key); [eauto|discriminate].
Qed.

(** C7 as amended: on a log where no entry is stored at or below
    [LastPrunedNonce] (at nonce 0 before any pruning), the pruning
    composition with a target below [LatestNonce] returns, and afterwards
    the read of every nonce up to the target reports not found, the read of
    every nonce above it returns what it returned before, and the last
    pruned nonce reads as the target, found. *)
Theorem PruneUpTo_boundary (k : Keeper) (ctx : Context) (target latest : Z) :
  LatestNonce ctx = Some latest ->
  is_uint64 target ->
  target < latest ->
  (forall j, 0 <= j <= default 0 (LastPrunedNonce ctx) -> ~ has_attestation ctx j) ->
  exists ctx',
    PruneUpTo target ctx = Returned tt ctx'
    /\ (forall j, is_uint64 j -> j <= target ->
          GetAttestationByNonce k j ctx' = Returned (None, false, None) ctx')
    /\ (forall j r, is_uint64 j -> target < j ->
          GetAttestationByNonce k j ctx = Returned r ctx ->
          GetAttestationByNonce k j ctx' = Returned r ctx')
    /\ GetLastPrunedNonce ctx' = Returned (target, true) ctx'
    /\ CheckLastPrunedAttestationNonce ctx' = Returned true ctx'
    /\ GetLastPrunedAttestationNonce ctx' = Returned target ctx'.
Proof.
  intros Hlatest Ht Hlt Hbelow.
  destruct (PruneUpTo_spec target ctx)
    as (ctx' & Hrun & _ & Hlp & Hlat & Hgone & Hnone & Hother).
  exists ctx'. split; [exact Hrun|].
  assert (Hcheck : CheckLastPrunedAttestationNonce ctx' = Returned true ctx').
  { unfold CheckLastPrunedAttestationNonce, store_Has. rewrite Hlat.
    rewrite bool_decide_eq_true_2; [done|]. by eapply counter_Some_lookup. }
  assert (Hget : GetLastPrunedAttestationNonce ctx' = Returned target ctx').
  { unfold GetLastPrunedAttestationNonce, bind, store_Get. rewrite Hlp.
    by apply UInt64FromBytes_UInt64Bytes. }
  split; [|split; [|split; [|split]]]; try done.
  - intros j Hj Hle. rewrite GetAttestationByNonce_eq.
    destruct (Z_le_dec j (default 0 (LastPrunedNonce ctx))) as [Hlow|Hhigh].
    + rewrite Hnone; [done|].
      destruct (KVStore ctx !! types.GetAttestationKey j) eqn:Hk; [|done].
      exfalso. apply (Hbelow j); [unfold is_uint64 in Hj; lia|].
      unfold has_attestation. rewrite Hk. eauto.
    + rewrite Hgone by lia. done.
  - intros j r Hj Hgt. rewrite !GetAttestationByNonce_eq, Hother by done.
    by intros [= <-].
  - unfold GetLastPrunedNonce, bind. rewrite Hcheck, Hget. reflexivity.
Qed.

Lemma LatestNonce_ctx123 : LatestNonce ctx123 = Some 3.
Proof. vm_compute. reflexivity. Qed.

Lemma LastPrunedNonce_ctx123 : LastPrunedNonce ctx123 = None.
Proof. vm_compute. reflexivity. Qed.

Lemma nothing_below_ctx123 (j : Z) :
  0 <= j <= default 0 (LastPrunedNonce ctx123) -> ~ has_attestation ctx123 j.
Proof.
  rewrite LastPrunedNonce_ctx123. cbn [default from_option id]. intros Hj.
  assert (j = 0) as -> by lia.
  intros [v Hv]. vm_compute in Hv. discriminate.
Qed.

Lemma PruneUpTo_boundary_witness :
  LatestNonce ctx123 = Some 3
  /\ is_uint64 2
  /\ 2 < 3
  /\ (forall j, 0 <= j <= default 0 (LastPrunedNonce ctx123) -> ~ has_attestation ctx123 j)
  /\ PruneUpTo 2 ctx123 = Returned tt ctx_pruned
  /\ GetAttestationByNonce qgbKeeper 2 ctx_pruned = Returned (None, false, None) ctx_pruned
  /\ GetAttestationByNonce qgbKeeper 3 ctx123 = Returned (Some request3, true, None) ctx123
  /\ GetAttestationByNonce qgbKeeper 3 ctx_pruned
     = Returned (Some request3, true, None) ctx_pruned
  /\ GetLastPrunedNonce ctx_pruned = Returned (2, true) ctx_pruned.
Proof.
  assert (H2 : is_uint64 2) by (unfold is_uint64; lia).
  assert (H3 : is_uint64 3) by (unfold is_uint64; lia).
  assert (Hlt : 2 < 3) by lia.
  assert (Hle : 2 <= 2) by lia.
  assert (Hbefore : GetAttestationByNonce qgbKeeper 3 ctx123
                    = Returned (Some request3, true, None) ctx123)
    by (vm_compute; reflexivity).
  destruct (PruneUpTo_boundary qgbKeeper ctx123 2 3
              LatestNonce_ctx123 H2 Hlt nothing_below_ctx123)
    as (ctx' & Hrun & Hgone & Hkept & Hlast & _).
  assert (Hctx : ctx' = ctx_pruned) by (unfold ctx_pruned; by rewrite Hrun).
  rewrite Hctx in *.
  split; [exact LatestNonce_ctx123|]. split; [exact H2|]. split; [exact Hlt|].
  split; [exact nothing_below_ctx123|]. split; [exact Hrun|].
  split; [exact (Hgone 2 H2 Hle)|]. split; [exact Hbefore|].
  split; [exact (Hkept 3 _ H3 Hlt Hbefore)|].
  exact Hlast.
Defined.

(** C7 as stated fails: the first append accepts nonce 0, and the pruning
    composition starts at [LastPrunedNonce] + 1, which is 1 before any
    pruning.  After the appends of nonces 0, 1, 2, 3 (latest nonce 3) and
    the pruning up to 2, all of which return, the read of nonce 0 still
    finds its attestation although 0 is not above the target. *)
Lemma prune_keeps_entry_below_boundary :
  Appends qgbKeeper [request0; request1; request2; request3] empty_ctx
  = Returned tt ctx0123
  /\ LatestNonce ctx0123 = Some 3
  /\ LastPrunedNonce ctx0123 = None
  /\ PruneUpTo 2 ctx0123 = Returned tt ctx0123_pruned
  /\ ~ (forall j, is_uint64 j -> j <= 2 ->
          GetAttestationByNonce qgbKeeper j ctx0123_pruned
          = Returned (None, false, None) ctx0123_pruned).
Proof.
  split; [vm_compute; reflexivity|].
  split; [vm_compute; reflexivity|].
  split; [vm_compute; reflexivity|].
  split; [vm_compute; reflexivity|].
  intros H.
  assert (H0 : is_uint64 0) by (unfold is_uint64; lia).
  assert (Hle : 0 <= 2) by lia.
  specialize (H 0 H0 Hle). vm_compute in H. discriminate.
Qed.

(** ** The contiguous range *)

Lemma log_inv_empty : log_inv empty_ctx.
Proof.
  split; [exact counters_wf_empty|]. split.
  - intros n Hn.
    unfold has_attestation, LastPrunedNonce, LatestNonce, counter, empty_ctx.
    cbn [KVStore]. rewrite !lookup_empty. cbn [mbind option_bind default from_option id].
    split; [intros [? [=]] | lia].
  - unfold LastPrunedNonce, LatestNonce, counter, empty_ctx.
    cbn [KVStore]. rewrite !lookup_empty. cbn [mbind option_bind default from_option id]. lia.
Qed.

Lemma LastPrunedNonce_appended ctx at_ b :
  LastPrunedNonce (appended ctx at_ b) = LastPrunedNonce ctx.
Proof.
  unfold LastPrunedNonce, counter, appended; cbn [KVStore].
  rewrite lookup_insert_ne by apply latest_key_not_last_pruned.
  by rewrite lookup_insert_ne by apply attestation_key_not_last_pruned.
Qed.

Lemma has_attestation_appended ctx at_ b (n : Z) :
  is_uint64 n -> is_uint64 (types.GetNonce at_) ->
  has_attestation (appended ctx at_ b) n
  <-> n = types.GetNonce at_ \/ has_attestation ctx n.
Proof.
  intros Hn Hat. unfold has_attestation, appended; cbn [KVStore].
  rewrite lookup_insert_ne by (apply not_eq_sym, attestation_key_not_latest).
  destruct (Z.eq_dec n (types.GetNonce at_)) as [->|Hne].
  - rewrite lookup_insert_eq. split; eauto.
  - rewrite lookup_insert_ne
      by (intros Heq; apply Hne; symmetry; by apply GetAttestationKey_inj).
    split; [eauto|]. intros [?|?]; done.
Qed.

Lemma log_inv_Append (k : Keeper) ctx at_ ctx' :
  log_inv ctx ->
  (LatestNonce ctx = None -> types.GetNonce at_ = 1) ->
  types.GetNonce at_ <> 0 ->
  SetAttestationRequest k at_ ctx = Returned None ctx' ->
  log_inv ctx'.
Proof.
  intros (Hwf & HI1 & Hrange) Hfirst Hnz Hs.
  destruct (SetAttestationRequest_advances _ _ _ _ _ Hwf Hs) as (Hwf' & Hstep & Hnew).
  apply SetAttestationRequest_Returned in Hs as (_ & _ & b & _ & ->).
  pose proof (counter_nonneg types.LastPrunedAttestationNonce ctx) as Hlo.
  fold (LastPrunedNonce ctx) in Hlo.
  assert (Hnonce : types.GetNonce at_ = default 0 (LatestNonce ctx) + 1
                   /\ is_uint64 (types.GetNonce at_)).
  { destruct (LatestNonce ctx) as [latest|] eqn:Hl.
    - destruct (Hstep latest eq_refl) as [Hn _]. cbn [default from_option id] in *.
      unfold uint64_add in Hn.
      destruct (Z.eq_dec (latest + 1) (2 ^ 64)) as [Hwrap|Hno].
      + rewrite Hwrap, Z.mod_same in Hn by lia. done.
      + rewrite Z.mod_small in Hn by lia. unfold is_uint64. lia.
    - rewrite (Hfirst eq_refl). cbn. unfold is_uint64. lia. }
  destruct Hnonce as [Hn Hu].
  split; [exact Hwf'|].
  unfold I1. rewrite (Hnew Hu), LastPrunedNonce_appended.
  cbn [default from_option id].
  split.
  - intros n Hnn. rewrite has_attestation_appended by done.
    rewrite (HI1 n Hnn). unfold is_uint64 in Hu. lia.
  - unfold is_uint64 in Hu. lia.
Qed.

Lemma log_inv_PruneUpTo ctx target latest ctx' :
  log_inv ctx ->
  LatestNonce ctx = Some latest ->
  default 0 (LastPrunedNonce ctx) <= target < latest ->
  PruneUpTo target ctx = Returned tt ctx' ->
  log_inv ctx'.
Proof.
  intros ((Hwfl & Hwfp) & HI1 & Hrange) Hl Ht Hrun.
  destruct (PruneUpTo_spec target ctx)
    as (ctx'' & Hrun' & _ & Hlp & Hlat & Hgone & Hnone & Hother).
  rewrite Hrun in Hrun'. injection Hrun' as <-.
  pose proof (counter_nonneg types.LastPrunedAttestationNonce ctx) as Hlo.
  fold (LastPrunedNonce ctx) in Hlo.
  rewrite Hl in Hrange. cbn [default from_option id] in Hrange.
  assert (Hut : is_uint64 target) by (unfold is_uint64; lia).
  assert (Hl' : LatestNonce ctx' = Some latest).
  { unfold LatestNonce, counter in *. by rewrite Hlat. }
  assert (Hp' : LastPrunedNonce ctx' = Some target).
  { unfold LastPrunedNonce, counter. rewrite Hlp. cbn [mbind option_bind].
    rewrite <- (app_nil_r (types.UInt64Bytes _)).
    by apply BigEndian_Uint64_UInt64Bytes. }
  split; [split|split].
  - intros bz. rewrite Hlat. apply Hwfl.
  - intros bz. rewrite Hlp. intros [= <-].
    apply BigEndian_Uint64_UInt64Bytes_is_Some.
  - intros n Hn. rewrite Hl', Hp'. cbn [default from_option id]. unfold has_attestation.
    destruct (Z_le_dec n target) as [Hle|Hgt].
    + destruct (Z_le_dec n (default 0 (LastPrunedNonce ctx))) as [Hlow|Hhigh].
      * rewrite Hnone.
        { split; [intros [? [=]] | lia]. }
        destruct (KVStore ctx !! types.GetAttestationKey n) eqn:Hk; [|done].
        assert (has_attestation ctx n) as Hhas
            by (unfold has_attestation; rewrite Hk; eauto).
        apply HI1 in Hhas; [lia|done].
      * rewrite Hgone by lia. split; [intros [? [=]] | lia].
    + rewrite Hother by (done || lia).
      fold (has_attestation ctx n). rewrite (HI1 n Hn), Hl. cbn [default from_option id]. lia.
  - rewrite Hl', Hp'. cbn [default from_option id]. lia.
Qed.

Lemma committed_log_inv (k : Keeper) (ctx : Context) :
  committed k ctx -> log_inv ctx.
Proof.
  induction 1 as [| ctx at_ ctx' _ IH Hfirst Hnz Hs
                  | ctx target latest ctx' _ IH Hl Ht Hrun].
  - exact log_inv_empty.
  - by eapply log_inv_Append.
  - by eapply log_inv_PruneUpTo.
Qed.

(** C5 as amended: in every log state reached from the fresh log by appends
    that returned (the first with nonce 1, none wrapping around to 0) and by
    pruning compositions with a target at least [LastPrunedNonce] and below
    [LatestNonce], the nonces with a stored attestation are exactly those of
    the range from [LastPrunedNonce] + 1 (from 1 before any pruning) to
    [LatestNonce]. *)
Theorem committed_contiguous (k : Keeper) (ctx : Context) :
  committed k ctx -> I1 ctx.
Proof. intros H. by destruct (committed_log_inv k ctx H) as (_ & HI1 & _). Qed.

Lemma committed_ctx_pruned : committed qgbKeeper ctx_pruned.
Proof.
  assert (H1 : committed qgbKeeper ctx1).
  { apply (committed_Append qgbKeeper empty_ctx request1);
      [apply committed_fresh | reflexivity | discriminate | vm_compute; reflexivity]. }
  assert (H2 : committed qgbKeeper
                 (ctx_of (SetAttestationRequest qgbKeeper request2 ctx1))).
  { apply (committed_Append qgbKeeper ctx1 request2);
      [exact H1 | vm_compute; discriminate | discriminate | vm_compute; reflexivity]. }
  assert (H3 : committed qgbKeeper ctx123).
  { apply (committed_Append qgbKeeper
             (ctx_of (SetAttestationRequest qgbKeeper request2 ctx1)) request3);
      [exact H2 | vm_compute; discriminate | discriminate | vm_compute; reflexivity]. }
  apply (committed_PruneUpTo qgbKeeper ctx123 2 3);
    [exact H3 | exact LatestNonce_ctx123 | | vm_compute; reflexivity].
  rewrite LastPrunedNonce_ctx123. cbn [default from_option id]. lia.
Qed.

Lemma committed_contiguous_witness :
  committed qgbKeeper ctx_pruned /\ I1 ctx_pruned.
Proof.
  split; [exact committed_ctx_pruned|].
  exact (committed_contiguous qgbKeeper ctx_pruned committed_ctx_pruned).
Defined.

(** C5 as stated fails: after the appends of nonces 1, 2, 3 and
    [DeleteAttestation] of nonce 2, all of which return, nonce 2 lies in the
    range from 1 to the latest nonce 3 but has no stored attestation. *)
Lemma delete_breaks_contiguity :
  ~ (forall ops ctx', run_ops qgbKeeper ops empty_ctx = Returned tt ctx' -> I1 ctx').
Proof.
  intros H.
  assert (Hrun : run_ops qgbKeeper ops_gap empty_ctx = Returned tt ctx_gap)
    by (vm_compute; reflexivity).
  assert (Hl : LatestNonce ctx_gap = Some 3) by (vm_compute; reflexivity).
  assert (Hp : LastPrunedNonce ctx_gap = None) by (vm_compute; reflexivity).
  assert (H2 : is_uint64 2) by (unfold is_uint64; lia).
  destruct (H ops_gap ctx_gap Hrun 2 H2) as [_ Hback].
  rewrite Hl, Hp in Hback. cbn [default from_option id] in Hback.
  destruct Hback as [v Hv]; [lia|].
  vm_compute in Hv. discriminate.
Qed.

(** ** The counters: check, read, write *)

Lemma last_unbonding_key_not_latest :
  bytes_of types.LastUnbondingNonce <> bytes_of types.LatestAttestationtNonce.
Proof. discriminate. Qed.

Lemma last_unbonding_key_not_last_pruned :
  bytes_of types.LastUnbondingNonce <> bytes_of types.LastPrunedAttestationNonce.
Proof. discriminate. Qed.

Lemma attestation_key_not_last_unbonding (n : Z) :
  types.GetAttestationKey n <> bytes_of types.LastUnbondingNonce.
Proof. discriminate. Qed.

Lemma store_Has_eq key ctx :
  store_Has key ctx
  = Returned match KVStore ctx !! key with Some _ => true | None => false end ctx.
Proof.
  unfold store_Has. destruct (KVStore ctx !! key) eqn:Hk.
  - by rewrite bool_decide_eq_true_2 by eauto.
  - by rewrite bool_decide_eq_false_2 by (intros [? ?]; discriminate).
Qed.

Lemma CheckLatestAttestationNonce_eq ctx :
  CheckLatestAttestationNonce ctx
  = Returned match KVStore ctx !! bytes_of types.LatestAttestationtNonce with
             | Some _ => true
             | None => false
             end ctx.
Proof. apply store_Has_eq. Qed.

Lemma GetLatestAttestationNonce_eq ctx :
  GetLatestAttestationNonce ctx
  = match KVStore ctx !! bytes_of types.LatestAttestationtNonce with
    | Some bz => UInt64FromBytes bz ctx
    | None => Panicked (PanicString "nil LatestAttestationNonce") ctx
    end.
Proof.
  unfold GetLatestAttestationNonce, bind, store_Get.
  by destruct (KVStore ctx !! _).
Qed.

(** X1: a [SetLatestAttestationNonce] that returns is read back: the check
    then reports true and [GetLatestAttestationNonce] returns the nonce
    set. *)
Theorem SetLatestAttestationNonce_read_back (nonce : Z) (ctx ctx' : Context) :
  is_uint64 nonce ->
  SetLatestAttestationNonce nonce ctx = Returned tt ctx' ->
  CheckLatestAttestationNonce ctx' = Returned true ctx'
  /\ GetLatestAttestationNonce ctx' = Returned nonce ctx'.
Proof.
  intros Hn Hset. rewrite SetLatestAttestationNonce_eq in Hset.
  assert (Hctx : ctx' = set_kv ctx (bytes_of types.LatestAttestationtNonce)
                          (types.UInt64Bytes nonce)).
  { destruct (KVStore ctx !! _) as [bz|]; [|congruence].
    destruct (BigEndian_Uint64 bz) as [latest|]; [|discriminate].
    destruct (uint64_add latest 1 =? nonce); [congruence|discriminate]. }
  subst ctx'. rewrite CheckLatestAttestationNonce_eq, GetLatestAttestationNonce_eq.
  unfold set_kv; cbn [KVStore]. rewrite lookup_insert_eq.
  split; [reflexivity|]. by apply UInt64FromBytes_UInt64Bytes.
Qed.

Lemma SetLatestAttestationNonce_read_back_witness :
  is_uint64 7
  /\ SetLatestAttestationNonce 7 empty_ctx
     = Returned tt (ctx_of (SetLatestAttestationNonce 7 empty_ctx))
  /\ CheckLatestAttestationNonce (ctx_of (SetLatestAttestationNonce 7 empty_ctx))
     = Returned true (ctx_of (SetLatestAttestationNonce 7 empty_ctx))
  /\ GetLatestAttestationNonce (ctx_of (SetLatestAttestationNonce 7 empty_ctx))
     = Returned 7 (ctx_of (SetLatestAttestationNonce 7 empty_ctx)).
Proof.
  assert (H7 : is_uint64 7) by (unfold is_uint64; lia).
  assert (Hs : SetLatestAttestationNonce 7 empty_ctx
               = Returned tt (ctx_of (SetLatestAttestationNonce 7 empty_ctx)))
    by (vm_compute; reflexivity).
  split; [exact H7|]. split; [exact Hs|].
  exact (SetLatestAttestationNonce_read_back 7 empty_ctx _ H7 Hs).
Defined.

(** X2: after a [SetAttestationRequest] that returned, the check of the
    latest nonce reports true and [GetLatestAttestationNonce] returns the
    nonce of the request. *)
Theorem SetAttestationRequest_sets_latest (k : Keeper) at_ ctx r ctx' :
  is_uint64 (types.GetNonce at_) ->
  SetAttestationRequest k at_ ctx = Returned r ctx' ->
  CheckLatestAttestationNonce ctx' = Returned true ctx'
  /\ GetLatestAttestationNonce ctx' = Returned (types.GetNonce at_) ctx'.
Proof.
  intros Hn Hs.
  apply SetAttestationRequest_Returned in Hs as (_ & _ & b & _ & ->).
  rewrite CheckLatestAttestationNonce_eq, GetLatestAttestationNonce_eq.
  unfold appended; cbn [KVStore]. rewrite lookup_insert_eq.
  split; [reflexivity|]. by apply UInt64FromBytes_UInt64Bytes.
Qed.

Lemma SetAttestationRequest_sets_latest_witness :
  is_uint64 (types.GetNonce request1)
  /\ SetAttestationRequest qgbKeeper request1 empty_ctx = Returned None ctx1
  /\ CheckLatestAttestationNonce ctx1 = Returned true ctx1
  /\ GetLatestAttestationNonce ctx1 = Returned (types.GetNonce request1) ctx1.
Proof.
  assert (H1 : is_uint64 (types.GetNonce request1)) by (cbn; unfold is_uint64; lia).
  assert (Hs : SetAttestationRequest qgbKeeper request1 empty_ctx = Returned None ctx1)
    by (vm_compute; reflexivity).
  split; [exact H1|]. split; [exact Hs|].
  exact (SetAttestationRequest_sets_latest qgbKeeper request1 empty_ctx None ctx1 H1 Hs).
Defined.

(** X3: [SetLatestAttestationNonce] on a log whose latest counter is well
    formed panics exactly when the counter is set and the nonce is not the
    counter plus one modulo 2^64; a panic leaves the context as it was, and
    a return changes the key of the latest nonce only. *)
Theorem SetLatestAttestationNonce_outcome (nonce : Z) (ctx : Context) :
  counter_wf types.LatestAttestationtNonce ctx ->
  (panics (SetLatestAttestationNonce nonce ctx)
   <-> exists latest, LatestNonce ctx = Some latest /\ uint64_add latest 1 <> nonce)
  /\ (forall v ctx', SetLatestAttestationNonce nonce ctx = Panicked v ctx' ->
        v = increment_panic /\ ctx' = ctx)
  /\ (forall ctx', SetLatestAttestationNonce nonce ctx = Returned tt ctx' ->
        EventManager ctx' = EventManager ctx
        /\ forall key, key <> bytes_of types.LatestAttestationtNonce ->
             KVStore ctx' !! key = KVStore ctx !! key).
Proof.
  intros Hwf. rewrite SetLatestAttestationNonce_eq.
  unfold LatestNonce, counter, counter_wf in *.
  destruct (KVStore ctx !! bytes_of types.LatestAttestationtNonce) as [bz|] eqn:Hk.
  - destruct (Hwf bz eq_refl) as [latest Hbz]. rewrite Hbz. cbn [mbind option_bind].
    rewrite Hbz.
    destruct (Z.eqb_spec (uint64_add latest 1) nonce) as [Heq|Hne].
    + split; [|split].
      * cbn. split; [done|]. intros (l & [= <-] & Hl). done.
      * intros v ctx' [=].
      * intros ctx' [= <-]. split; [done|]. intros key Hkey.
        unfold set_kv; cbn [KVStore]. by apply lookup_insert_ne, not_eq_sym.
    + split; [|split].
      * cbn. split; [eauto|done].
      * by intros v ctx' [= <- <-].
      * intros ctx' [=].
  - cbn. split; [|split].
    + split; [done|]. intros (l & [=] & _).
    + intros v ctx' [=].
    + intros ctx' [= <-]. split; [done|]. intros key Hkey.
      by apply lookup_insert_ne, not_eq_sym.
Qed.

Lemma counter_wf_latest_ctx1 : counter_wf types.LatestAttestationtNonce ctx1.
Proof. apply counters_wf_ctx1. Qed.

Lemma SetLatestAttestationNonce_outcome_witness :
  counter_wf types.LatestAttestationtNonce ctx1
  /\ (panics (SetLatestAttestationNonce 3 ctx1)
      <-> exists latest, LatestNonce ctx1 = Some latest /\ uint64_add latest 1 <> 3)
  /\ SetLatestAttestationNonce 3 ctx1 = Panicked increment_panic ctx1
  /\ (increment_panic = increment_panic /\ ctx1 = ctx1).
Proof.
  assert (Hp : SetLatestAttestationNonce 3 ctx1 = Panicked increment_panic ctx1)
    by (vm_compute; reflexivity).
  destruct (SetLatestAttestationNonce_outcome 3 ctx1 counter_wf_latest_ctx1)
    as (Hiff & Hpanic & _).
  split; [exact counter_wf_latest_ctx1|]. split; [exact Hiff|].
  split; [exact Hp|]. exact (Hpanic increment_panic ctx1 Hp).
Defined.

(** X4: after a [SetLatestAttestationNonce] that returned for a nonce, the
    next call returns for exactly one nonce, the successor modulo 2^64; in
    particular setting the same nonce again panics. *)
Theorem SetLatestAttestationNonce_only_successor (nonce next : Z) (ctx ctx' : Context) :
  is_uint64 nonce ->
  SetLatestAttestationNonce nonce ctx = Returned tt ctx' ->
  (panics (SetLatestAttestationNonce next ctx') <-> next <> uint64_add nonce 1)
  /\ SetLatestAttestationNonce nonce ctx' = Panicked increment_panic ctx'.
Proof.
  intros Hn Hset.
  destruct (SetLatestAttestationNonce_read_back _ _ _ Hn Hset) as [_ Hget].
  rewrite GetLatestAttestationNonce_eq in Hget.
  assert (Heq : forall m,
             SetLatestAttestationNonce m ctx'
             = if uint64_add nonce 1 =? m
               then Returned tt (set_kv ctx' (bytes_of types.LatestAttestationtNonce)
                                   (types.UInt64Bytes m))
               else Panicked increment_panic ctx').
  { intros m. rewrite SetLatestAttestationNonce_eq.
    destruct (KVStore ctx' !! bytes_of types.LatestAttestationtNonce) as [bz|];
      [|discriminate].
    unfold UInt64FromBytes in Hget.
    destruct (BigEndian_Uint64 bz) as [v|]; [|discriminate].
    by injection Hget as ->. }
  split.
  - rewrite Heq. destruct (Z.eqb_spec (uint64_add nonce 1) next) as [<-|Hne]; cbn.
    + split; [done|]. intros H. by apply H.
    + split; [|done]. intros _ ->. by apply Hne.
  - rewrite Heq. destruct (Z.eqb_spec (uint64_add nonce 1) nonce) as [Heq1|_]; [|done].
    exfalso. unfold uint64_add, is_uint64 in *.
    destruct (Z.eq_dec (nonce + 1) (2 ^ 64)) as [Hw|Hw].
    + rewrite Hw, Z.mod_same in Heq1 by lia. lia.
    + rewrite Z.mod_small in Heq1 by lia. lia.
Qed.

Lemma SetLatestAttestationNonce_only_successor_witness :
  is_uint64 MaxUint64
  /\ SetLatestAttestationNonce MaxUint64 empty_ctx = Returned tt ctx_max
  /\ (panics (SetLatestAttestationNonce 0 ctx_max) <-> 0 <> uint64_add MaxUint64 1)
  /\ SetLatestAttestationNonce MaxUint64 ctx_max = Panicked increment_panic ctx_max.
Proof.
  assert (Hm : is_uint64 MaxUint64) by (unfold is_uint64, MaxUint64; lia).
  assert (Hs : SetLatestAttestationNonce MaxUint64 empty_ctx = Returned tt ctx_max)
    by (vm_compute; reflexivity).
  split; [exact Hm|]. split; [exact Hs|].
  exact (SetLatestAttestationNonce_only_successor MaxUint64 0 empty_ctx ctx_max Hm Hs).
Defined.

(** X5: [CheckLatestAttestationNonce] guards exactly the nil panic of
    [GetLatestAttestationNonce]: the check reports false if and only if the
    read panics on the nil counter, and neither changes the context. *)
Theorem GetLatestAttestationNonce_guard (ctx : Context) :
  (CheckLatestAttestationNonce ctx = Returned false ctx
   <-> GetLatestAttestationNonce ctx
       = Panicked (PanicString "nil LatestAttestationNonce") ctx)
  /\ (CheckLatestAttestationNonce ctx = Returned true ctx
      <-> exists bz, KVStore ctx !! bytes_of types.LatestAttestationtNonce = Some bz
                     /\ GetLatestAttestationNonce ctx = UInt64FromBytes bz ctx).
Proof.
  rewrite CheckLatestAttestationNonce_eq, GetLatestAttestationNonce_eq.
  destruct (KVStore ctx !! _) as [bz|].
  - split; split; try discriminate; eauto.
    unfold UInt64FromBytes. destruct (BigEndian_Uint64 bz); discriminate.
  - split; split; try done. intros (bz & [=] & _).
Qed.

Lemma CheckLastUnbondingNonce_eq ctx :
  CheckLastUnbondingNonce ctx
  = Returned match KVStore ctx !! bytes_of types.LastUnbondingNonce with
             | Some _ => true
             | None => false
             end ctx.
Proof. apply store_Has_eq. Qed.

Lemma GetLastUnbondingNonce_eq ctx :
  GetLastUnbondingNonce ctx
  = match KVStore ctx !! bytes_of types.LastUnbondingNonce with
    | Some bz => UInt64FromBytes bz ctx
    | None => Panicked (PanicString "nil last unbonding nonce") ctx
    end.
Proof.
  unfold GetLastUnbondingNonce, bind, store_Get.
  by destruct (KVStore ctx !! _).
Qed.

Lemma GetLastPrunedAttestationNonce_eq ctx :
  GetLastPrunedAttestationNonce ctx
  = match KVStore ctx !! bytes_of types.LastPrunedAttestationNonce with
    | Some bz => UInt64FromBytes bz ctx
    | None => Panicked (PanicString "nil last pruned attestation nonce") ctx
    end.
Proof.
  unfold GetLastPrunedAttestationNonce, bind, store_Get.
  by destruct (KVStore ctx !! _).
Qed.

(** X6: [SetLastUnbondingNonce] never fails and is read back: afterwards
    the check reports true and [GetLastUnbondingNonce] returns the nonce
    set; the latest and last pruned counters, every attestation entry and
    the events are as before. *)
Theorem SetLastUnbondingNonce_read_back (nonce : Z) (ctx : Context) :
  is_uint64 nonce ->
  exists ctx',
    SetLastUnbondingNonce nonce ctx = Returned tt ctx'
    /\ CheckLastUnbondingNonce ctx' = Returned true ctx'
    /\ GetLastUnbondingNonce ctx' = Returned nonce ctx'
    /\ KVStore ctx' !! bytes_of types.LatestAttestationtNonce
       = KVStore ctx !! bytes_of types.LatestAttestationtNonce
    /\ KVStore ctx' !! bytes_of types.LastPrunedAttestationNonce
       = KVStore ctx !! bytes_of types.LastPrunedAttestationNonce
    /\ (forall m, KVStore ctx' !! types.GetAttestationKey m
                  = KVStore ctx !! types.GetAttestationKey m)
    /\ EventManager ctx' = EventManager ctx.
Proof.
  intros Hn. eexists. split; [reflexivity|].
  rewrite CheckLastUnbondingNonce_eq, GetLastUnbondingNonce_eq. cbn [KVStore EventManager].
  rewrite lookup_insert_eq.
  split; [reflexivity|]. split; [by apply UInt64FromBytes_UInt64Bytes|].
  split; [apply lookup_insert_ne, last_unbonding_key_not_latest|].
  split; [apply lookup_insert_ne, last_unbonding_key_not_last_pruned|].
  split; [|reflexivity].
  intros m. apply lookup_insert_ne, not_eq_sym, attestation_key_not_last_unbonding.
Qed.

Lemma SetLastUnbondingNonce_read_back_witness :
  is_uint64 5
  /\ exists ctx',
      SetLastUnbondingNonce 5 ctx123 = Returned tt ctx'
      /\ CheckLastUnbondingNonce ctx' = Returned true ctx'
      /\ GetLastUnbondingNonce ctx' = Returned 5 ctx'
      /\ KVStore ctx' !! bytes_of types.LatestAttestationtNonce
         = KVStore ctx123 !! bytes_of types.LatestAttestationtNonce
      /\ KVStore ctx' !! bytes_of types.LastPrunedAttestationNonce
         = KVStore ctx123 !! bytes_of types.LastPrunedAttestationNonce
      /\ (forall m, KVStore ctx' !! types.GetAttestationKey m
                    = KVStore ctx123 !! types.GetAttestationKey m)
      /\ EventManager ctx' = EventManager ctx123.
Proof.
  assert (H5 : is_uint64 5) by (unfold is_uint64; lia).
  split; [exact H5|].
  exact (SetLastUnbondingNonce_read_back 5 ctx123 H5).
Defined.

(** X7: [CheckLastUnbondingNonce] guards exactly the nil panic of
    [GetLastUnbondingNonce]: the check reports false if and only if the read
    panics on the nil counter. *)
Theorem GetLastUnbondingNonce_guard (ctx : Context) :
  (CheckLastUnbondingNonce ctx = Returned false ctx
   <-> GetLastUnbondingNonce ctx
       = Panicked (PanicString "nil last unbonding nonce") ctx)
  /\ (CheckLastUnbondingNonce ctx = Returned true ctx
      <-> exists bz, KVStore ctx !! bytes_of types.LastUnbondingNonce = Some bz
                     /\ GetLastUnbondingNonce ctx = UInt64FromBytes bz ctx).
Proof.
  rewrite CheckLastUnbondingNonce_eq, GetLastUnbondingNonce_eq.
  destruct (KVStore ctx !! _) as [bz|].
  - split; split; try discriminate; eauto.
    unfold UInt64FromBytes. destruct (BigEndian_Uint64 bz); discriminate.
  - split; split; try done. intros (bz & [=] & _).
Qed.

(** X8: [SetLastPrunedAttestationNonce] never fails and is read back by
    [GetLastPrunedAttestationNonce]; the last write wins, and the latest
    and last unbonding counters, every attestation entry and the events are
    as before. *)
Theorem SetLastPrunedAttestationNonce_read_back (first nonce : Z) (ctx : Context) :
  is_uint64 nonce ->
  exists mid ctx',
    SetLastPrunedAttestationNonce first ctx = Returned tt mid
    /\ SetLastPrunedAttestationNonce nonce mid = Returned tt ctx'
    /\ SetLastPrunedAttestationNonce nonce ctx = Returned tt ctx'
    /\ GetLastPrunedAttestationNonce ctx' = Returned nonce ctx'
    /\ KVStore ctx' !! bytes_of types.LatestAttestationtNonce
       = KVStore ctx !! bytes_of types.LatestAttestationtNonce
    /\ KVStore ctx' !! bytes_of types.LastUnbondingNonce
       = KVStore ctx !! bytes_of types.LastUnbondingNonce
    /\ (forall m, KVStore ctx' !! types.GetAttestationKey m
                  = KVStore ctx !! types.GetAttestationKey m)
    /\ EventManager ctx' = EventManager ctx.
Proof.
  intros Hn. eexists. eexists. split; [reflexivity|]. split; [reflexivity|].
  cbn [KVStore EventManager]. rewrite insert_insert_eq.
  split; [reflexivity|].
  rewrite GetLastPrunedAttestationNonce_eq. cbn [KVStore]. rewrite lookup_insert_eq.
  split; [by apply UInt64FromBytes_UInt64Bytes|].
  split; [apply lookup_insert_ne, not_eq_sym, latest_key_not_last_pruned|].
  split; [apply lookup_insert_ne, not_eq_sym, last_unbonding_key_not_last_pruned|].
  split; [|reflexivity].
  intros m. apply lookup_insert_ne, not_eq_sym, attestation_key_not_last_pruned.
Qed.

Lemma SetLastPrunedAttestationNonce_read_back_witness :
  is_uint64 2
  /\ exists mid ctx',
      SetLastPrunedAttestationNonce 1 ctx123 = Returned tt mid
      /\ SetLastPrunedAttestationNonce 2 mid = Returned tt ctx'
      /\ SetLastPrunedAttestationNonce 2 ctx123 = Returned tt ctx'
      /\ GetLastPrunedAttestationNonce ctx' = Returned 2 ctx'
      /\ KVStore ctx' !! bytes_of types.LatestAttestationtNonce
         = KVStore ctx123 !! bytes_of types.LatestAttestationtNonce
      /\ KVStore ctx' !! bytes_of types.LastUnbondingNonce
         = KVStore ctx123 !! bytes_of types.LastUnbondingNonce
      /\ (forall m, KVStore ctx' !! types.GetAttestationKey m
                    = KVStore ctx123 !! types.GetAttestationKey m)
      /\ EventManager ctx' = EventManager ctx123.
Proof.
  assert (H2 : is_uint64 2) by (unfold is_uint64; lia).
  split; [exact H2|].
  exact (SetLastPrunedAttestationNonce_read_back 1 2 ctx123 H2).
Defined.

(** X9: [SetLastPrunedAttestationNonce] never changes what
    [CheckLastPrunedAttestationNonce] reports: before and after the write
    the check reports whether the key of the latest nonce is present. *)
Theorem SetLastPrunedAttestationNonce_keeps_check (nonce : Z) (ctx : Context) :
  exists ctx' found,
    SetLastPrunedAttestationNonce nonce ctx = Returned tt ctx'
    /\ CheckLastPrunedAttestationNonce ctx = Returned found ctx
    /\ CheckLastPrunedAttestationNonce ctx' = Returned found ctx'
    /\ (found = true
        <-> is_Some (KVStore ctx !! bytes_of types.LatestAttestationtNonce)).
Proof.
  eexists. eexists. split; [reflexivity|].
  unfold CheckLastPrunedAttestationNonce. rewrite !store_Has_eq. cbn [KVStore].
  rewrite lookup_insert_ne by (apply not_eq_sym, latest_key_not_last_pruned).
  split; [reflexivity|]. split; [reflexivity|].
  destruct (KVStore ctx !! _) as [bz|].
  - split; eauto.
  - split; [discriminate|]. by intros [? [=]].
Qed.

(** ** Deleting, composed *)

(** X10: [DeleteAttestation] is idempotent, and two deletions commute. *)
Theorem DeleteAttestation_idempotent_commute (n m : Z) (ctx : Context) :
  (call DeleteAttestation n ; DeleteAttestation n) ctx = DeleteAttestation n ctx
  /\ (call DeleteAttestation n ; DeleteAttestation m) ctx
     = (call DeleteAttestation m ; DeleteAttestation n) ctx.
Proof.
  unfold bind. rewrite !DeleteAttestation_eq. cbn [KVStore EventManager].
  split.
  - by rewrite delete_delete_eq.
  - by rewrite delete_delete.
Qed.

(** X11: after [DeleteAttestation] of a nonce, [GetAttestationByNonce] of
    that nonce reports not found, with no error, whatever was stored. *)
Theorem DeleteAttestation_then_Get (k : Keeper) (n : Z) (ctx : Context) :
  exists ctx',
    DeleteAttestation n ctx = Returned tt ctx'
    /\ GetAttestationByNonce k n ctx' = Returned (None, false, None) ctx'.
Proof.
  eexists. split; [apply DeleteAttestation_eq|].
  rewrite GetAttestationByNonce_eq. cbn [KVStore].
  by rewrite lookup_delete_eq.
Qed.

(** ** Appending, once more *)

(** X12: a [SetAttestationRequest] that returned changed the entry of its
    nonce and the latest nonce only: the last pruned and last unbonding
    counters are as before, and the read of every other nonce returns what
    it returned before. *)
Theorem SetAttestationRequest_frame (k : Keeper) at_ ctx r ctx' :
  is_uint64 (types.GetNonce at_) ->
  SetAttestationRequest k at_ ctx = Returned r ctx' ->
  KVStore ctx' !! bytes_of types.LastPrunedAttestationNonce
  = KVStore ctx !! bytes_of types.LastPrunedAttestationNonce
  /\ KVStore ctx' !! bytes_of types.LastUnbondingNonce
     = KVStore ctx !! bytes_of types.LastUnbondingNonce
  /\ forall m res, is_uint64 m -> m <> types.GetNonce at_ ->
       GetAttestationByNonce k m ctx = Returned res ctx ->
       GetAttestationByNonce k m ctx' = Returned res ctx'.
Proof.
  intros Hn Hs.
  apply SetAttestationRequest_Returned in Hs as (_ & _ & b & _ & ->).
  unfold appended. cbn [KVStore].
  split; [|split].
  - rewrite lookup_insert_ne by apply latest_key_not_last_pruned.
    apply lookup_insert_ne, attestation_key_not_last_pruned.
  - rewrite lookup_insert_ne by (apply not_eq_sym, last_unbonding_key_not_latest).
    apply lookup_insert_ne, attestation_key_not_last_unbonding.
  - intros m res Hm Hne. rewrite !GetAttestationByNonce_eq. cbn [KVStore].
    rewrite lookup_insert_ne by (apply not_eq_sym, attestation_key_not_latest).
    rewrite lookup_insert_ne
      by (intros Heq; apply Hne; symmetry; by apply GetAttestationKey_inj).
    by intros [= <-].
Qed.

Lemma SetAttestationRequest_frame_witness :
  is_uint64 (types.GetNonce request2)
  /\ SetAttestationRequest qgbKeeper request2 ctx1 = Returned None ctx12
  /\ KVStore ctx12 !! bytes_of types.LastPrunedAttestationNonce
     = KVStore ctx1 !! bytes_of types.LastPrunedAttestationNonce
  /\ KVStore ctx12 !! bytes_of types.LastUnbondingNonce
     = KVStore ctx1 !! bytes_of types.LastUnbondingNonce
  /\ GetAttestationByNonce qgbKeeper 1 ctx1 = Returned (Some request1, true, None) ctx1
  /\ GetAttestationByNonce qgbKeeper 1 ctx12 = Returned (Some request1, true, None) ctx12.
Proof.
  assert (H2 : is_uint64 (types.GetNonce request2)) by (cbn; unfold is_uint64; lia).
  assert (H1 : is_uint64 1) by (unfold is_uint64; lia).
  assert (Hne : 1 <> types.GetNonce request2) by (cbn; lia).
  assert (Hs : SetAttestationRequest qgbKeeper request2 ctx1 = Returned None ctx12)
    by (vm_compute; reflexivity).
  assert (Hg : GetAttestationByNonce qgbKeeper 1 ctx1
               = Returned (Some request1, true, None) ctx1)
    by (vm_compute; reflexivity).
  destruct (SetAttestationRequest_frame qgbKeeper request2 ctx1 None ctx12 H2 Hs)
    as (Hp & Hu & Hother).
  split; [exact H2|]. split; [exact Hs|]. split; [exact Hp|]. split; [exact Hu|].
  split; [exact Hg|]. exact (Hother 1 _ H1 Hne Hg).
Defined.

(** X13: a [SetAttestationRequest] that returns has emitted exactly one
    event, after those already emitted: an attestation request event with
    the module name and the nonce in decimal; one that panics has emitted
    none. *)
Theorem SetAttestationRequest_events (k : Keeper) at_ ctx :
  match SetAttestationRequest k at_ ctx with
  | Returned _ ctx' =>
      EventManager ctx'
      = EventManager ctx
        ++ [NewEvent types.EventTypeAttestationRequest
              [ ("module"%string, types.ModuleName);
                (types.AttributeKeyNonce, Sprint (types.GetNonce at_)) ]]
  | Panicked _ ctx' => EventManager ctx' = EventManager ctx
  end.
Proof.
  rewrite SetAttestationRequest_eq.
  destruct (KVStore ctx !! types.GetAttestationKey _); [reflexivity|].
  destruct (MarshalInterface _ _) as [err|b]; [reflexivity|]. cbv zeta.
  destruct (KVStore ctx !! bytes_of _) as [bz|]; [|reflexivity].
  destruct (BigEndian_Uint64 bz) as [latest|]; [|reflexivity].
  destruct (uint64_add latest 1 =? _); reflexivity.
Qed.

(** X14: for every codec, after a [SetAttestationRequest] that returned,
    [GetAttestationByNonce] of the request's nonce decodes the bytes the
    codec produced for the request: it returns the decoded attestation,
    found, or, when the codec cannot decode its own output, not found with
    [ErrUnmarshalllAttestation]. *)
Theorem SetAttestationRequest_then_Get (k : Keeper) at_ ctx r ctx' :
  SetAttestationRequest k at_ ctx = Returned r ctx' ->
  exists b,
    MarshalInterface (cdc k) at_ = inr b
    /\ GetAttestationByNonce k (types.GetNonce at_) ctx'
       = Returned
           match UnmarshalInterface (cdc k) b with
           | inl _ => (None, false, Some types.ErrUnmarshalllAttestation)
           | inr decoded => (Some decoded, true, None)
           end ctx'.
Proof.
  intros Hs.
  destruct (SetAttestationRequest_stores _ _ _ _ _ Hs) as (b & Hm & Hb).
  exists b. split; [done|]. by rewrite GetAttestationByNonce_eq, Hb.
Qed.

Lemma SetAttestationRequest_then_Get_witness :
  SetAttestationRequest writeOnlyKeeper request1 empty_ctx
  = Returned None (ctx_of (SetAttestationRequest writeOnlyKeeper request1 empty_ctx))
  /\ exists b,
      MarshalInterface (cdc writeOnlyKeeper) request1 = inr b
      /\ GetAttestationByNonce writeOnlyKeeper (types.GetNonce request1)
           (ctx_of (SetAttestationRequest writeOnlyKeeper request1 empty_ctx))
         = Returned
             match UnmarshalInterface (cdc writeOnlyKeeper) b with
             | inl _ => (None, false, Some types.ErrUnmarshalllAttestation)
             | inr decoded => (Some decoded, true, None)
             end (ctx_of (SetAttestationRequest writeOnlyKeeper request1 empty_ctx)).
Proof.
  assert (Hs : SetAttestationRequest writeOnlyKeeper request1 empty_ctx
               = Returned None
                   (ctx_of (SetAttestationRequest writeOnlyKeeper request1 empty_ctx)))
    by (vm_compute; reflexivity).
  split; [exact Hs|].
  exact (SetAttestationRequest_then_Get writeOnlyKeeper request1 empty_ctx None _ Hs).
Defined.

(** X15: the nonce check wraps around: on a log whose latest nonce is the
    largest [uint64], [SetAttestationRequest] of a request with nonce 0
    returns (its key being free and marshalling succeeding), and
    [GetLatestAttestationNonce] then returns 0. *)
Theorem SetAttestationRequest_wraps_around (k : Keeper) at_ b ctx :
  GetLatestAttestationNonce ctx = Returned MaxUint64 ctx ->
  types.GetNonce at_ = 0 ->
  KVStore ctx !! types.GetAttestationKey 0 = None ->
  MarshalInterface (cdc k) at_ = inr b ->
  exists ctx',
    SetAttestationRequest k at_ ctx = Returned None ctx'
    /\ GetLatestAttestationNonce ctx' = Returned 0 ctx'.
Proof.
  intros Hl Hn Hfree Hm. rewrite GetLatestAttestationNonce_eq in Hl.
  destruct (KVStore ctx !! bytes_of types.LatestAttestationtNonce) as [bz|] eqn:Hk;
    [|discriminate].
  unfold UInt64FromBytes in Hl.
  destruct (BigEndian_Uint64 bz) as [v|] eqn:Hbz; [|discriminate].
  injection Hl as ->.
  exists (appended ctx at_ b). split.
  - rewrite SetAttestationRequest_eq, Hn, Hfree, Hm. cbv zeta. rewrite Hk, Hbz.
    reflexivity.
  - rewrite GetLatestAttestationNonce_eq. unfold appended; cbn [KVStore].
    rewrite lookup_insert_eq, Hn. reflexivity.
Qed.

Lemma SetAttestationRequest_wraps_around_witness :
  GetLatestAttestationNonce ctx_max = Returned MaxUint64 ctx_max
  /\ types.GetNonce request0 = 0
  /\ KVStore ctx_max !! types.GetAttestationKey 0 = None
  /\ (exists b, MarshalInterface (cdc qgbKeeper) request0 = inr b)
  /\ exists ctx',
      SetAttestationRequest qgbKeeper request0 ctx_max = Returned None ctx'
      /\ GetLatestAttestationNonce ctx' = Returned 0 ctx'.
Proof.
  assert (Hl : GetLatestAttestationNonce ctx_max = Returned MaxUint64 ctx_max)
    by (vm_compute; reflexivity).
  assert (Hn : types.GetNonce request0 = 0) by reflexivity.
  assert (Hf : KVStore ctx_max !! types.GetAttestationKey 0 = None)
    by (vm_compute; reflexivity).
  split; [exact Hl|]. split; [exact Hn|]. split; [exact Hf|].
  split; [eexists; reflexivity|].
  exact (SetAttestationRequest_wraps_around qgbKeeper request0 _ ctx_max
           Hl Hn Hf eq_refl).
Defined.

(** X16: a run of appends is accepted whenever it can be: on a log with
    well-formed counters, if the requests marshal, their nonces are
    distinct, within [uint64] and follow one another from the latest nonce
    (each the previous plus one modulo 2^64), and their keys are free, then
    every [SetAttestationRequest] of the run returns. *)
Theorem Appends_accepts_consecutive (k : Keeper) ats ctx :
  counters_wf ctx ->
  Forall (fun a => is_uint64 (types.GetNonce a)
                   /\ (exists b, MarshalInterface (cdc k) a = inr b)
                   /\ KVStore ctx !! types.GetAttestationKey (types.GetNonce a) = None)
    ats ->
  NoDup (types.GetNonce <$> ats) ->
  consecutive (LatestNonce ctx) (types.GetNonce <$> ats) ->
  exists ctx', Appends k ats ctx = Returned tt ctx'.
Proof.
  revert ctx. induction ats as [|at_ ats IH]; intros ctx Hwf Hall Hnd Hcons.
  - by exists ctx.
  - apply Forall_cons in Hall as [(Hu & (b & Hm) & Hfree) Hall].
    cbn [fmap list_fmap] in Hnd, Hcons. apply NoDup_cons in Hnd as [Hnotin Hnd].
    cbn [consecutive] in Hcons. destruct Hcons as [Hfollow Hcons].
    destruct (SetAttestationRequest k at_ ctx) as [r mid|v mid] eqn:Hs.
    + pose proof (SetAttestationRequest_advances _ _ _ _ _ Hwf Hs) as (Hwf' & _ & Hnew).
      specialize (Hnew Hu).
      pose proof Hs as Hs'.
      apply SetAttestationRequest_Returned in Hs' as (_ & _ & b' & _ & Hmid).
      assert (Hall' :
          Forall (fun a => is_uint64 (types.GetNonce a)
                   /\ (exists b, MarshalInterface (cdc k) a = inr b)
                   /\ KVStore mid !! types.GetAttestationKey (types.GetNonce a) = None)
            ats).
      { rewrite Forall_forall in Hall. apply Forall_forall. intros a Ha.
        destruct (Hall a Ha) as (Hua & Hma & Hfa).
        split; [done|]. split; [done|].
        rewrite Hmid. unfold appended; cbn [KVStore].
        rewrite lookup_insert_ne by (apply not_eq_sym, attestation_key_not_latest).
        rewrite lookup_insert_ne; [done|].
        intros Heq. apply GetAttestationKey_inj in Heq; [|done..].
        apply Hnotin. rewrite Heq. apply list_elem_of_fmap. eauto. }
      assert (Hcons' : consecutive (LatestNonce mid) (types.GetNonce <$> ats))
        by (by rewrite Hnew).
      destruct (IH mid Hwf' Hall' Hnd Hcons') as [ctx' Hrun].
      exists ctx'. cbn [Appends]. unfold bind at 1. by rewrite Hs.
    + exfalso.
      assert (Hp : panics (SetAttestationRequest k at_ ctx)) by (by rewrite Hs).
      apply SetAttestationRequest_panics_iff in Hp
        as [[? Hhas] | [[err He] | (latest & Hl & Hne)]]; [|congruence| |done].
      * congruence.
      * rewrite Hl in Hfollow. by apply Hne.
Qed.

Lemma Appends_accepts_consecutive_witness :
  counters_wf empty_ctx
  /\ Forall (fun a => is_uint64 (types.GetNonce a)
                      /\ (exists b, MarshalInterface (cdc qgbKeeper) a = inr b)
                      /\ KVStore empty_ctx !! types.GetAttestationKey (types.GetNonce a)
                         = None)
       [request1; request2; request3]
  /\ NoDup (types.GetNonce <$> [request1; request2; request3])
  /\ consecutive (LatestNonce empty_ctx) (types.GetNonce <$> [request1; request2; request3])
  /\ exists ctx', Appends qgbKeeper [request1; request2; request3] empty_ctx
                  = Returned tt ctx'.
Proof.
  assert (Hall : Forall (fun a => is_uint64 (types.GetNonce a)
                      /\ (exists b, MarshalInterface (cdc qgbKeeper) a = inr b)
                      /\ KVStore empty_ctx !! types.GetAttestationKey (types.GetNonce a)
                         = None)
                   [request1; request2; request3]).
  { repeat constructor; try (cbn; unfold is_uint64; lia); eexists; reflexivity. }
  assert (Hnd : NoDup (types.GetNonce <$> [request1; request2; request3])).
  { apply (bool_decide_unpack _). vm_compute. exact I. }
  assert (Hc : consecutive (LatestNonce empty_ctx)
                 (types.GetNonce <$> [request1; request2; request3])).
  { vm_compute. repeat split. }
  split; [exact counters_wf_empty|]. split; [exact Hall|]. split; [exact Hnd|].
  split; [exact Hc|].
  exact (Appends_accepts_consecutive qgbKeeper [request1; request2; request3] empty_ctx
           counters_wf_empty Hall Hnd Hc).
Defined.
